(** * GitLab MR MCP server: tool dispatch and response normalisation

    A shallow embedding of [index.js] (the JavaScript server built on the
    low-level [Server] class, with one [CallToolRequestSchema] handler that
    switches on the tool name) and of its TypeScript successor (built on
    [McpServer.registerTool], one callback per tool, with falsiness checks on
    the required arguments), followed by the properties of both.

    Conventions of the model:
    - JavaScript values are the inductive [value]; a number is an integer
      ([VNum]) or [VNaN]; fractional numbers and functions do not occur.
    - An object is an association list in insertion order, as
      [JSON.stringify] walks it.
    - The GitLab client ([api]) is a parameter: a function from a call and
      the provider's state to a result or a thrown error and a new state.
      Every call is also appended to a log, so that "no provider call was
      attempted" is a statement about the log.
    - [await] is modelled as sequencing; each invocation runs alone. *)

From Stdlib Require Import ZArith List Bool Ascii String DecimalString Lia.
From stdpp Require Import gmap strings list.
Import ListNotations.

Set Warnings "-register-all".
Local Open Scope string_scope.
Local Open Scope list_scope.

(** ** JavaScript values *)

Inductive value : Type :=
| VUndef
| VNull
| VBool (b : bool)
| VNum (n : Z)
| VNaN
| VStr (s : string)
| VArr (items : list value)
| VObj (fields : list (string * value)).

(** [ToBoolean]: what [!x], [x ? a : b] and [x || y] test. *)
Definition truthy (v : value) : bool :=
  match v with
  | VUndef | VNull | VNaN => false
  | VBool b => b
  | VNum n => negb (n =? 0)%Z
  | VStr s => negb (String.eqb s "")
  | VArr _ | VObj _ => true
  end.

Definition nullish (v : value) : bool :=
  match v with
  | VUndef | VNull => true
  | _ => false
  end.

(** [Array.isArray(v) && v.length > 0] *)
Definition isNonEmptyArray (v : value) : bool :=
  match v with
  | VArr l => (0 <? length l)%nat
  | _ => false
  end.

(** [v === false] *)
Definition strictEqFalse (v : value) : bool :=
  match v with
  | VBool false => true
  | _ => false
  end.

(** [v === s] for a string literal [s] *)
Definition strictEqStr (v : value) (s : string) : bool :=
  match v with
  | VStr t => String.eqb t s
  | _ => false
  end.

(** Own-property lookup in an object literal or a parsed JSON object. *)
Fixpoint lookupField (k : string) (fs : list (string * value)) : value :=
  match fs with
  | [] => VUndef
  | (k', v) :: rest => if String.eqb k' k then v else lookupField k rest
  end.

(** [v.k] for a value that is not null or undefined. None of the property
    names the handlers read ([id], [title], [notes], [resolved], ...) is a
    built-in property of a string, number, boolean or array, so reading
    them off such a value gives [undefined]. *)
Definition readProp (v : value) (k : string) : value :=
  match v with
  | VObj fs => lookupField k fs
  | _ => VUndef
  end.

(** ** [JSON.stringify(v, null, 2)] *)

Definition quoteChar : ascii := ascii_of_nat 34.
Definition backslash : ascii := ascii_of_nat 92.
Definition newline : string := String (ascii_of_nat 10) EmptyString.

Definition hexDigit (n : nat) : ascii :=
  if (n <? 10)%nat then ascii_of_nat (48 + n) else ascii_of_nat (87 + n).

(** One character of [QuoteJSONString]. *)
Definition escapeChar (c : ascii) : string :=
  let n := nat_of_ascii c in
  if (n =? 34)%nat then String backslash (String quoteChar EmptyString)
  else if (n =? 92)%nat then String backslash (String backslash EmptyString)
  else if (n =? 8)%nat then String backslash "b"
  else if (n =? 12)%nat then String backslash "f"
  else if (n =? 10)%nat then String backslash "n"
  else if (n =? 13)%nat then String backslash "r"
  else if (n =? 9)%nat then String backslash "t"
  else if (n <? 32)%nat then
    String backslash
      ("u00" +:+ String (hexDigit (n / 16)) (String (hexDigit (n mod 16)) EmptyString))
  else String c EmptyString.

Fixpoint escapeString (s : string) : string :=
  match s with
  | EmptyString => EmptyString
  | String c rest => escapeChar c +:+ escapeString rest
  end.

Definition quoteJSON (s : string) : string :=
  String quoteChar (escapeString s) +:+ String quoteChar EmptyString.

(** [Number::toString] on an integer, as decimal digits. JavaScript
    prints a number as the double it is: the two agree on integers of
    magnitude up to 2^53 (every id GitLab hands out); beyond that the
    digits differ. *)
Definition numberToString (n : Z) : string :=
  NilZero.string_of_int (Z.to_int n).

Fixpoint joinWith (sep : string) (parts : list string) : string :=
  match parts with
  | [] => EmptyString
  | [p] => p
  | p :: rest => p +:+ sep +:+ joinWith sep rest
  end.

(** [SerializeJSONProperty] with a gap of two spaces: [None] is the
    [undefined] that makes an object drop the property and an array print
    [null]. *)
Fixpoint serialize (indent : string) (v : value) {struct v} : option string :=
  match v with
  | VUndef => None
  | VNull => Some "null"
  | VBool true => Some "true"
  | VBool false => Some "false"
  | VNum n => Some (numberToString n)
  | VNaN => Some "null"
  | VStr s => Some (quoteJSON s)
  | VArr items =>
      let stepback := indent in
      let indent := indent +:+ "  " in
      match items with
      | [] => Some "[]"
      | _ =>
          let partial :=
            List.map (fun item => default "null" (serialize indent item)) items in
          let separator := "," +:+ newline +:+ indent in
          Some ("[" +:+ newline +:+ indent +:+ joinWith separator partial
                +:+ newline +:+ stepback +:+ "]")
      end
  | VObj fields =>
      let stepback := indent in
      let indent := indent +:+ "  " in
      let partial :=
        List.flat_map
          (fun kv =>
             match serialize indent (snd kv) with
             | None => []
             | Some str => [quoteJSON (fst kv) +:+ ": " +:+ str]
             end) fields in
      match partial with
      | [] => Some "{}"
      | _ =>
          let separator := "," +:+ newline +:+ indent in
          Some ("{" +:+ newline +:+ indent +:+ joinWith separator partial
                +:+ newline +:+ stepback +:+ "}")
      end
  end.

(** [JSON.stringify(v, null, 2)]; [None] stands for the result
    [undefined]. *)
Definition stringify (v : value) : option string := serialize EmptyString v.

(** ** Errors and the normalised result *)

(** An [Error] as the handlers see it: [new Error(msg)] and the run-time's
    [TypeError]s carry a message and no cause; a provider error can carry
    a [cause] with a [description]. *)
Record ErrorCause : Type := { description : option string }.
Record Error : Type := { message : string; cause : option ErrorCause }.

Definition newError (msg : string) : Error :=
  {| message := msg; cause := None |}.

(** [MCPResponse]; [text = None] is a [text] property that holds
    [undefined] (what [JSON.stringify(undefined)] returns), [isError = None]
    an absent [isError]. *)
Record ContentItem : Type := { type : string; text : option string }.
Record MCPResponse : Type := { content : list ContentItem; isError : option bool }.

(** [error.cause?.description] *)
Definition causeDescription (error : Error) : option string :=
  match cause error with
  | None => None
  | Some c => description c
  end.

(** [d || fallback] where [d] is a string or [undefined] *)
Definition orString (d : option string) (fallback : string) : string :=
  match d with
  | Some s => if String.eqb s "" then fallback else s
  | None => fallback
  end.

Definition formatErrorResponse (error : Error) : MCPResponse :=
  {| content :=
       [ {| type := "text";
            text := Some ("Error: " +:+ message error +:+ " - "
                          +:+ orString (causeDescription error) "No additional details") |} ];
     isError := Some true |}.

(** [{ content: [{ type: "text", text: t }] }] *)
Definition textResponse (t : option string) : MCPResponse :=
  {| content := [ {| type := "text"; text := t |} ]; isError := None |}.

(** ** The provider client and the handlers' effects *)

(** The calls the handlers make on the GitLab client, with their actual
    arguments. An argument the caller leaves out is [VUndef]. *)
Inductive ApiCall : Type :=
| Projects_all (options : value)
| MergeRequests_all (options : value)
| MergeRequests_show (projectId mergerequestIId : value)
| MergeRequestDiscussions_all (projectId mergerequestIId : value)
| MergeRequestDiscussions_create (projectId mergerequestIId body options : value)
| MergeRequests_allDiffs (projectId mergerequestIId : value)
| Issues_show (issueIId options : value)
| MergeRequests_edit (projectId mergerequestIId options : value).

Section Effects.
Context {World : Type}.

(** What a run can change: the provider's own state and the log of the
    calls made on it. *)
Record PState : Type := { world : World; calls : list ApiCall }.

(** A computation that may throw; the state survives a throw. *)
Definition M (A : Type) : Type := PState -> (Error + A) * PState.

Definition ret {A} (a : A) : M A := fun s => (inr a, s).
Definition throw {A} (e : Error) : M A := fun s => (inl e, s).
Definition bind {A B} (m : M A) (k : A -> M B) : M B :=
  fun s =>
    match m s with
    | (inl e, s') => (inl e, s')
    | (inr a, s') => k a s'
    end.

Variable api : ApiCall -> World -> (Error + value) * World.

(** [await api.X.y(...)] *)
Definition call (c : ApiCall) : M value :=
  fun s =>
    let (r, w) := api c (world s) in
    (r, {| world := w; calls := calls s ++ [c] |}).

(** [try { return await body } catch (error) { return formatErrorResponse(error) }] *)
Definition tryCatch (body : M MCPResponse) : PState -> MCPResponse * PState :=
  fun s =>
    match body s with
    | (inr result, s') => (result, s')
    | (inl error, s') => (formatErrorResponse error, s')
    end.
End Effects.

Arguments PState : clear implicits.
Arguments M : clear implicits.

Declare Scope js_scope.
Delimit Scope js_scope with js.
Notation "'let*' x ':=' m 'in' k" := (bind m (fun x => k))
  (at level 10, x name, m at level 100, k at level 200) : js_scope.
Local Open Scope js_scope.

Section RunTime.
Context {World : Type}.
#[local] Abbreviation M := (M World).

Definition typeError {A} (msg : string) : M A := throw (newError msg).

(** The [TypeError] of a property read on [null] or [undefined]. *)
Definition cannotRead {A} (v : value) (k : string) : M A :=
  typeError ("Cannot read properties of "
             +:+ (match v with VNull => "null" | _ => "undefined" end)
             +:+ " (reading '" +:+ k +:+ "')").

(** [v.k] *)
Definition prop (v : value) (k : string) : M value :=
  if nullish v then cannotRead v k else ret (readProp v k).

(** [v?.k] *)
Definition optProp (v : value) (k : string) : value :=
  if nullish v then VUndef else readProp v k.

Fixpoint mapM {A B} (f : A -> M B) (l : list A) : M (list B) :=
  match l with
  | [] => ret []
  | x :: rest =>
      let* y := f x in
      let* ys := mapM f rest in
      ret (y :: ys)
  end.

Fixpoint filterM {A} (p : A -> M bool) (l : list A) : M (list A) :=
  match l with
  | [] => ret []
  | x :: rest =>
      let* keep := p x in
      let* ys := filterM p rest in
      ret (if keep : bool then x :: ys else ys)
  end.

(** [v.map(f)], [v] named [name] in the source *)
Definition arrayMap (name : string) (f : value -> M value) (v : value) : M value :=
  match v with
  | VArr items => let* mapped := mapM f items in ret (VArr mapped)
  | VUndef | VNull => cannotRead v "map"
  | _ => typeError (name +:+ ".map is not a function")
  end.

(** [v.filter(p)] on an array *)
Definition arrayFilter (p : value -> M bool) (items : list value) : M (list value) :=
  filterM p items.

(** [v.flatMap(f)]: a callback result that is an array is spread one
    level, any other result is kept as one element. *)
Definition arrayFlatMap (name : string) (f : value -> M value) (v : value)
  : M (list value) :=
  match v with
  | VArr items =>
      let* mapped := mapM f items in
      ret (List.flat_map (fun r => match r with VArr xs => xs | _ => [r] end) mapped)
  | VUndef | VNull => cannotRead v "flatMap"
  | _ => typeError (name +:+ ".flatMap is not a function")
  end.
End RunTime.

(** ** Arguments and ambient configuration *)

(** [request.params.arguments]: string keys to JSON values. *)
Abbreviation Args := (gmap string value).

(** A destructured parameter: [undefined] when the key is absent. *)
Definition arg (args : Args) (k : string) : value := default VUndef (args !! k).

(** A destructured parameter with a default, [{ k = d }]. *)
Definition argOr (args : Args) (k : string) (d : value) : value :=
  match arg args k with
  | VUndef => d
  | v => v
  end.

(** The two optional environment variables [getProjects] reads. *)
Record Env : Type :=
  { MR_MCP_MIN_ACCESS_LEVEL : option string;
    MR_MCP_PROJECT_SEARCH_TERM : option string }.

Definition isWhiteSpace (c : ascii) : bool :=
  let n := nat_of_ascii c in
  ((9 <=? n) && (n <=? 13) || (n =? 32))%nat.

Fixpoint trimStart (s : string) : string :=
  match s with
  | String c rest => if isWhiteSpace c then trimStart rest else s
  | EmptyString => s
  end.

Fixpoint leadingDigits (s : string) (acc : option Z) : option Z :=
  match s with
  | String c rest =>
      let n := nat_of_ascii c in
      if ((48 <=? n) && (n <=? 57))%nat
      then leadingDigits rest (Some (10 * default 0 acc + Z.of_nat (n - 48)))%Z
      else acc
  | EmptyString => acc
  end.

(** [parseInt(s, 10)] on a string of bytes, with an exact integer as its
    result. It is JavaScript's result when the white space in front is
    ASCII and the digits denote an integer of magnitude up to 2^53;
    JavaScript also skips Unicode white space and rounds a longer run of
    digits to a double. *)
Definition parseInt (s : string) : value :=
  let s := trimStart s in
  let '(negative, s) :=
    match s with
    | String c rest =>
        if Ascii.eqb c "-" then (true, rest)
        else if Ascii.eqb c "+" then (false, rest)
        else (false, s)
    | EmptyString => (false, s)
    end in
  match leadingDigits s None with
  | Some n => VNum (if negative then - n else n)
  | None => VNaN
  end.

(** The truthiness of [process.env.X]: set and not empty. *)
Definition envSet (x : option string) : option string :=
  match x with
  | Some s => if String.eqb s "" then None else Some s
  | None => None
  end.

(** [{ ...(min ? { minAccessLevel: parseInt(min, 10) } : {}),
       ...(term ? { search: term } : {}) }] *)
Definition projectFilter (env : Env) : list (string * value) :=
  match envSet (MR_MCP_MIN_ACCESS_LEVEL env) with
  | Some s => [("minAccessLevel", parseInt s)]
  | None => []
  end
  ++
  match envSet (MR_MCP_PROJECT_SEARCH_TERM env) with
  | Some s => [("search", VStr s)]
  | None => []
  end.

(** ** The filtered projections

    The object literals the handlers build when [verbose] is not set. They
    read the same in the JavaScript and in the TypeScript source (whose
    [as] casts do nothing at run time). *)

Section Projections.
Context {World : Type}.
#[local] Abbreviation M := (M World).

(** The callback of [projects.map] *)
Definition filterProject (project : value) : M value :=
  let* id := prop project "id" in
  let* description := prop project "description" in
  let* name := prop project "name" in
  let* path := prop project "path" in
  let* path_with_namespace := prop project "path_with_namespace" in
  let* web_url := prop project "web_url" in
  let* default_branch := prop project "default_branch" in
  ret (VObj [("id", id); ("description", description); ("name", name);
             ("path", path); ("path_with_namespace", path_with_namespace);
             ("web_url", web_url); ("default_branch", default_branch)]).

(** The callback of [mergeRequests.map] *)
Definition filterMergeRequest (mr : value) : M value :=
  let* iid := prop mr "iid" in
  let* project_id := prop mr "project_id" in
  let* title := prop mr "title" in
  let* description := prop mr "description" in
  let* state := prop mr "state" in
  let* web_url := prop mr "web_url" in
  ret (VObj [("iid", iid); ("project_id", project_id); ("title", title);
             ("description", description); ("state", state); ("web_url", web_url)]).

(** The object literal of [getMergeRequestDetails] *)
Definition filterMergeRequestDetails (mr : value) : M value :=
  let* title := prop mr "title" in
  let* description := prop mr "description" in
  let* state := prop mr "state" in
  let* web_url := prop mr "web_url" in
  let* target_branch := prop mr "target_branch" in
  let* source_branch := prop mr "source_branch" in
  let* merge_status := prop mr "merge_status" in
  let* detailed_merge_status := prop mr "detailed_merge_status" in
  let* diff_refs := prop mr "diff_refs" in
  ret (VObj [("title", title); ("description", description); ("state", state);
             ("web_url", web_url); ("target_branch", target_branch);
             ("source_branch", source_branch); ("merge_status", merge_status);
             ("detailed_merge_status", detailed_merge_status);
             ("diff_refs", diff_refs)]).

(** The object literal of [getIssueDetails] *)
Definition filterIssue (issue : value) : M value :=
  let* title := prop issue "title" in
  let* description := prop issue "description" in
  ret (VObj [("title", title); ("description", description)]).

(** [note => note.resolved === false] *)
Definition isUnresolved (note : value) : M bool :=
  let* resolved := prop note "resolved" in
  ret (strictEqFalse resolved).

(** [note => note.type === kind] *)
Definition hasType (kind : string) (note : value) : M bool :=
  let* type := prop note "type" in
  ret (strictEqStr type kind).
End Projections.

(** ** The JavaScript server *)

Module JS.

(** One entry of the [tools] array: the name and the [inputSchema]
    (each property with its JSON type, and the [required] list). The
    prose descriptions are left out. *)
Record Tool : Type :=
  { name : string;
    properties : list (string * string);
    required : list string }.

Definition tools : list Tool :=
  [ {| name := "get_projects";
       properties := [("verbose", "boolean")];
       required := [] |};
    {| name := "list_open_merge_requests";
       properties := [("project_id", "number"); ("verbose", "boolean")];
       required := ["project_id"] |};
    {| name := "get_merge_request_details";
       properties := [("project_id", "number"); ("merge_request_iid", "number");
                      ("verbose", "boolean")];
       required := ["project_id"; "merge_request_iid"] |};
    {| name := "get_merge_request_comments";
       properties := [("project_id", "number"); ("merge_request_iid", "number");
                      ("verbose", "boolean")];
       required := ["project_id"; "merge_request_iid"] |};
    {| name := "add_merge_request_comment";
       properties := [("project_id", "number"); ("merge_request_iid", "number");
                      ("comment", "string")];
       required := ["project_id"; "merge_request_iid"; "comment"] |};
    {| name := "add_merge_request_diff_comment";
       properties := [("project_id", "number"); ("merge_request_iid", "number");
                      ("comment", "string"); ("base_sha", "string");
                      ("start_sha", "string"); ("head_sha", "string");
                      ("file_path", "string"); ("line_number", "string")];
       required := ["project_id"; "merge_request_iid"; "comment"; "base_sha";
                    "start_sha"; "head_sha"; "file_path"; "line_number"] |};
    {| name := "get_merge_request_diff";
       properties := [("project_id", "number"); ("merge_request_iid", "number")];
       required := ["project_id"; "merge_request_iid"] |};
    {| name := "get_issue_details";
       properties := [("project_id", "number"); ("issue_iid", "number");
                      ("verbose", "boolean")];
       required := ["project_id"; "issue_iid"] |};
    {| name := "set_merge_request_description";
       properties := [("project_id", "number"); ("merge_request_iid", "number");
                      ("description", "string")];
       required := ["project_id"; "merge_request_iid"; "description"] |};
    {| name := "set_merge_request_title";
       properties := [("project_id", "number"); ("merge_request_iid", "number");
                      ("title", "string")];
       required := ["project_id"; "merge_request_iid"; "title"] |} ].

Section Server.
Context {World : Type}.
Variable api : ApiCall -> World -> (Error + value) * World.
Variable env : Env.
#[local] Abbreviation M := (M World).

(** A handler's parameter pattern [{ a, b, ... }] applied to
    [request.params.arguments]: destructuring [undefined] throws. The
    message names the first property of the pattern, in one of two
    wordings: one when that property has a default, one when it has
    none. *)
Definition destructure (params : option Args) (first : string) (hasDefault : bool)
  : M Args :=
  match params with
  | Some args => ret args
  | None =>
      if hasDefault
      then typeError ("Cannot read properties of undefined (reading '" +:+ first +:+ "')")
      else typeError ("Cannot destructure property '" +:+ first
                      +:+ "' of 'undefined' as it is undefined.")
  end.

Definition getProjects (params : option Args) : M MCPResponse :=
  let* args := destructure params "verbose" true in
  let verbose := argOr args "verbose" (VBool false) in
  let* projects :=
    call api (Projects_all (VObj (("membership", VBool true) :: projectFilter env))) in
  let* filteredProjects :=
    (if truthy verbose then ret projects
     else arrayMap "projects" filterProject projects) in
  let projectsText :=
    if isNonEmptyArray filteredProjects
    then stringify filteredProjects
    else Some "No projects found." in
  ret (textResponse projectsText).

Definition listOpenMergeRequests (params : option Args) : M MCPResponse :=
  let* args := destructure params "verbose" true in
  let verbose := argOr args "verbose" (VBool false) in
  let project_id := arg args "project_id" in
  let* mergeRequests :=
    call api (MergeRequests_all
                (VObj [("projectId", project_id); ("state", VStr "opened")])) in
  let* filteredMergeRequests :=
    (if truthy verbose then ret mergeRequests
     else arrayMap "mergeRequests" filterMergeRequest mergeRequests) in
  ret (textResponse (stringify filteredMergeRequests)).

Definition getMergeRequestDetails (params : option Args) : M MCPResponse :=
  let* args := destructure params "project_id" false in
  let project_id := arg args "project_id" in
  let merge_request_iid := arg args "merge_request_iid" in
  let verbose := argOr args "verbose" (VBool false) in
  let* mr := call api (MergeRequests_show project_id merge_request_iid) in
  let* filteredMr :=
    (if truthy verbose then ret mr else filterMergeRequestDetails mr) in
  ret (textResponse (stringify filteredMr)).

Definition filterDiscussionNote (note : value) : M value :=
  let* id := prop note "id" in
  let* noteable_id := prop note "noteable_id" in
  let* body := prop note "body" in
  let* author := prop note "author" in
  let* author_name := prop author "name" in
  ret (VObj [("id", id); ("noteable_id", noteable_id); ("body", body);
             ("author_name", author_name)]).

Definition filterDiffNote (note : value) : M value :=
  let* id := prop note "id" in
  let* noteable_id := prop note "noteable_id" in
  let* body := prop note "body" in
  let* author := prop note "author" in
  let* author_name := prop author "name" in
  let* position := prop note "position" in
  ret (VObj [("id", id); ("noteable_id", noteable_id); ("body", body);
             ("author_name", author_name); ("position", position)]).

(** The part of [getMergeRequestComments] after the [verbose] return:
    the object that is serialised. *)
Definition filterComments (discussions : value) : M value :=
  let* flattened := arrayFlatMap "discussions" (fun note => prop note "notes") discussions in
  let* unresolvedNotes := arrayFilter isUnresolved flattened in
  let* discussionKind := arrayFilter (hasType "DiscussionNote") unresolvedNotes in
  let* disscussionNotes := mapM filterDiscussionNote discussionKind in
  let* diffKind := arrayFilter (hasType "DiffNote") unresolvedNotes in
  let* diffNotes := mapM filterDiffNote diffKind in
  ret (VObj [("disscussionNotes", VArr disscussionNotes); ("diffNotes", VArr diffNotes)]).

Definition getMergeRequestComments (params : option Args) : M MCPResponse :=
  let* args := destructure params "project_id" false in
  let project_id := arg args "project_id" in
  let merge_request_iid := arg args "merge_request_iid" in
  let verbose := argOr args "verbose" (VBool false) in
  let* discussions := call api (MergeRequestDiscussions_all project_id merge_request_iid) in
  if truthy verbose then ret (textResponse (stringify discussions))
  else
    let* comments := filterComments discussions in
    ret (textResponse (stringify comments)).

Definition addMergeRequestComment (params : option Args) : M MCPResponse :=
  let* args := destructure params "project_id" false in
  let project_id := arg args "project_id" in
  let merge_request_iid := arg args "merge_request_iid" in
  let comment := arg args "comment" in
  let* note :=
    call api (MergeRequestDiscussions_create project_id merge_request_iid comment VUndef) in
  ret (textResponse (stringify note)).

Definition addMergeRequestDiffComment (params : option Args) : M MCPResponse :=
  let* args := destructure params "project_id" false in
  let project_id := arg args "project_id" in
  let merge_request_iid := arg args "merge_request_iid" in
  let comment := arg args "comment" in
  let base_sha := arg args "base_sha" in
  let start_sha := arg args "start_sha" in
  let head_sha := arg args "head_sha" in
  let file_path := arg args "file_path" in
  let line_number := arg args "line_number" in
  let* discussion :=
    call api
      (MergeRequestDiscussions_create project_id merge_request_iid comment
         (VObj [("position",
                 VObj [("base_sha", base_sha);
                       ("start_sha", start_sha);
                       ("head_sha", head_sha);
                       ("old_path", file_path);
                       ("new_path", file_path);
                       ("position_type", VStr "text");
                       ("new_line", line_number)])])) in
  ret (textResponse (stringify discussion)).

Definition getMergeRequestDiff (params : option Args) : M MCPResponse :=
  let* args := destructure params "project_id" false in
  let project_id := arg args "project_id" in
  let merge_request_iid := arg args "merge_request_iid" in
  let* diff := call api (MergeRequests_allDiffs project_id merge_request_iid) in
  let diffText :=
    if isNonEmptyArray diff
    then stringify diff
    else Some "No diff data available for this merge request." in
  ret (textResponse diffText).

Definition getIssueDetails (params : option Args) : M MCPResponse :=
  let* args := destructure params "project_id" false in
  let project_id := arg args "project_id" in
  let issue_iid := arg args "issue_iid" in
  let verbose := argOr args "verbose" (VBool false) in
  let* issue := call api (Issues_show issue_iid (VObj [("projectId", project_id)])) in
  let* filteredIssue := (if truthy verbose then ret issue else filterIssue issue) in
  ret (textResponse (stringify filteredIssue)).

Definition setMergeRequestDescription (params : option Args) : M MCPResponse :=
  let* args := destructure params "project_id" false in
  let project_id := arg args "project_id" in
  let merge_request_iid := arg args "merge_request_iid" in
  let description := arg args "description" in
  let* mr :=
    call api (MergeRequests_edit project_id merge_request_iid
                (VObj [("description", description)])) in
  ret (textResponse (stringify mr)).

Definition setMergeRequestTitle (params : option Args) : M MCPResponse :=
  let* args := destructure params "project_id" false in
  let project_id := arg args "project_id" in
  let merge_request_iid := arg args "merge_request_iid" in
  let title := arg args "title" in
  let* mr :=
    call api (MergeRequests_edit project_id merge_request_iid
                (VObj [("title", title)])) in
  ret (textResponse (stringify mr)).

(** The [switch (name)] of the [CallToolRequestSchema] handler. *)
Definition handlerFor (name : string) : option (option Args -> M MCPResponse) :=
  if String.eqb name "get_projects" then Some getProjects
  else if String.eqb name "list_open_merge_requests" then Some listOpenMergeRequests
  else if String.eqb name "get_merge_request_details" then Some getMergeRequestDetails
  else if String.eqb name "get_merge_request_comments" then Some getMergeRequestComments
  else if String.eqb name "add_merge_request_comment" then Some addMergeRequestComment
  else if String.eqb name "add_merge_request_diff_comment" then Some addMergeRequestDiffComment
  else if String.eqb name "get_merge_request_diff" then Some getMergeRequestDiff
  else if String.eqb name "get_issue_details" then Some getIssueDetails
  else if String.eqb name "set_merge_request_description" then Some setMergeRequestDescription
  else if String.eqb name "set_merge_request_title" then Some setMergeRequestTitle
  else None.

(** The body of the [try] block. *)
Definition runTool (name : string) (params : option Args) : M MCPResponse :=
  match handlerFor name with
  | Some handler => handler params
  | None => throw (newError ("Unknown tool: " +:+ name))
  end.

(** The [CallToolRequestSchema] handler, from [request.params] to the
    value it returns. *)
Definition callTool (name : string) (params : option Args)
  : PState World -> MCPResponse * PState World :=
  tryCatch (runTool name params).
End Server.

End JS.

(** ** The TypeScript server *)

Module TS.

(** The zod types of the input schemas. *)
Inductive ZodType : Type :=
| ZNumber
| ZString
| ZBoolean
| ZOptional (inner : ZodType).

Definition isOptional (z : ZodType) : bool :=
  match z with
  | ZOptional _ => true
  | _ => false
  end.

(** The fields of an input schema that are not [.optional()]. *)
Definition requiredFields (schema : list (string * ZodType)) : list string :=
  List.map fst (List.filter (fun field => negb (isOptional (snd field))) schema).

Section Server.
Context {World : Type}.
Variable api : ApiCall -> World -> (Error + value) * World.
Variable config : Env.
#[local] Abbreviation M := (M World).

Definition getProjects (args : Args) : M MCPResponse :=
  let verbose := argOr args "verbose" (VBool false) in
  let* projects :=
    call api (Projects_all (VObj (("membership", VBool true) :: projectFilter config))) in
  let* filteredProjects :=
    (if truthy verbose then ret projects
     else arrayMap "projects" filterProject projects) in
  let projectsText :=
    if isNonEmptyArray filteredProjects
    then stringify filteredProjects
    else Some "No projects found." in
  ret (textResponse projectsText).

Definition listOpenMergeRequests (args : Args) : M MCPResponse :=
  let verbose := argOr args "verbose" (VBool false) in
  let project_id := arg args "project_id" in
  if negb (truthy project_id)
  then throw (newError "project_id is required")
  else
    let* mergeRequests :=
      call api (MergeRequests_all
                  (VObj [("projectId", project_id); ("state", VStr "opened")])) in
    let* filteredMergeRequests :=
      (if truthy verbose then ret mergeRequests
       else arrayMap "mergeRequests" filterMergeRequest mergeRequests) in
    ret (textResponse (stringify filteredMergeRequests)).

Definition getMergeRequestDetails (args : Args) : M MCPResponse :=
  let project_id := arg args "project_id" in
  let merge_request_iid := arg args "merge_request_iid" in
  let verbose := argOr args "verbose" (VBool false) in
  if negb (truthy project_id) || negb (truthy merge_request_iid)
  then throw (newError "project_id and merge_request_iid are required")
  else
    let* mr := call api (MergeRequests_show project_id merge_request_iid) in
    let* filteredMr :=
      (if truthy verbose then ret mr else filterMergeRequestDetails mr) in
    ret (textResponse (stringify filteredMr)).

Definition filterDiscussionNote (note : value) : M value :=
  let* id := prop note "id" in
  let* noteable_id := prop note "noteable_id" in
  let* body := prop note "body" in
  let* author := prop note "author" in
  let author_name := optProp author "name" in
  ret (VObj [("id", id); ("noteable_id", noteable_id); ("body", body);
             ("author_name", author_name)]).

Definition filterDiffNote (note : value) : M value :=
  let* id := prop note "id" in
  let* noteable_id := prop note "noteable_id" in
  let* body := prop note "body" in
  let* author := prop note "author" in
  let author_name := optProp author "name" in
  let* position := prop note "position" in
  ret (VObj [("id", id); ("noteable_id", noteable_id); ("body", body);
             ("author_name", author_name); ("position", position)]).

(** The part of [getMergeRequestComments] after the [verbose] return:
    the [filteredComments] object. *)
Definition filterComments (discussions : value) : M value :=
  let* flattened := arrayFlatMap "discussions" (fun note => prop note "notes") discussions in
  let* unresolvedNotes := arrayFilter isUnresolved flattened in
  let* discussionKind := arrayFilter (hasType "DiscussionNote") unresolvedNotes in
  let* disscussionNotes := mapM filterDiscussionNote discussionKind in
  let* diffKind := arrayFilter (hasType "DiffNote") unresolvedNotes in
  let* diffNotes := mapM filterDiffNote diffKind in
  ret (VObj [("disscussionNotes", VArr disscussionNotes); ("diffNotes", VArr diffNotes)]).

Definition getMergeRequestComments (args : Args) : M MCPResponse :=
  let project_id := arg args "project_id" in
  let merge_request_iid := arg args "merge_request_iid" in
  let verbose := argOr args "verbose" (VBool false) in
  if negb (truthy project_id) || negb (truthy merge_request_iid)
  then throw (newError "project_id and merge_request_iid are required")
  else
    let* discussions := call api (MergeRequestDiscussions_all project_id merge_request_iid) in
    if truthy verbose then ret (textResponse (stringify discussions))
    else
      let* filteredComments := filterComments discussions in
      ret (textResponse (stringify filteredComments)).

Definition addMergeRequestComment (args : Args) : M MCPResponse :=
  let project_id := arg args "project_id" in
  let merge_request_iid := arg args "merge_request_iid" in
  let comment := arg args "comment" in
  if negb (truthy project_id) || negb (truthy merge_request_iid) || negb (truthy comment)
  then throw (newError "project_id, merge_request_iid, and comment are required")
  else
    let* note :=
      call api (MergeRequestDiscussions_create project_id merge_request_iid comment VUndef) in
    ret (textResponse (stringify note)).

Definition addMergeRequestDiffComment (args : Args) : M MCPResponse :=
  let project_id := arg args "project_id" in
  let merge_request_iid := arg args "merge_request_iid" in
  let comment := arg args "comment" in
  let base_sha := arg args "base_sha" in
  let start_sha := arg args "start_sha" in
  let head_sha := arg args "head_sha" in
  let file_path := arg args "file_path" in
  let line_number := arg args "line_number" in
  if negb (truthy project_id) || negb (truthy merge_request_iid) || negb (truthy comment)
     || negb (truthy base_sha) || negb (truthy start_sha) || negb (truthy head_sha)
     || negb (truthy file_path) || negb (truthy line_number)
  then throw (newError "project_id, merge_request_iid, comment, base_sha, start_sha, head_sha, file_path, and line_number are required")
  else
    let* discussion :=
      call api
        (MergeRequestDiscussions_create project_id merge_request_iid comment
           (VObj [("position",
                   VObj [("baseSha", base_sha);
                         ("startSha", start_sha);
                         ("headSha", head_sha);
                         ("oldPath", file_path);
                         ("newPath", file_path);
                         ("positionType", VStr "text");
                         ("newLine", line_number)])])) in
    ret (textResponse (stringify discussion)).

Definition getMergeRequestDiff (args : Args) : M MCPResponse :=
  let project_id := arg args "project_id" in
  let merge_request_iid := arg args "merge_request_iid" in
  if negb (truthy project_id) || negb (truthy merge_request_iid)
  then throw (newError "project_id and merge_request_iid are required")
  else
    let* diff := call api (MergeRequests_allDiffs project_id merge_request_iid) in
    let diffText :=
      if isNonEmptyArray diff
      then stringify diff
      else Some "No diff data available for this merge request." in
    ret (textResponse diffText).

Definition getIssueDetails (args : Args) : M MCPResponse :=
  let project_id := arg args "project_id" in
  let issue_iid := arg args "issue_iid" in
  let verbose := argOr args "verbose" (VBool false) in
  if negb (truthy project_id) || negb (truthy issue_iid)
  then throw (newError "project_id and issue_iid are required")
  else
    let* issue := call api (Issues_show issue_iid (VObj [("projectId", project_id)])) in
    let* filteredIssue := (if truthy verbose then ret issue else filterIssue issue) in
    ret (textResponse (stringify filteredIssue)).

Definition setMergeRequestDescription (args : Args) : M MCPResponse :=
  let project_id := arg args "project_id" in
  let merge_request_iid := arg args "merge_request_iid" in
  let description := arg args "description" in
  if negb (truthy project_id) || negb (truthy merge_request_iid) || negb (truthy description)
  then throw (newError "project_id, merge_request_iid, and description are required")
  else
    let* mr :=
      call api (MergeRequests_edit project_id merge_request_iid
                  (VObj [("description", description)])) in
    ret (textResponse (stringify mr)).

Definition setMergeRequestTitle (args : Args) : M MCPResponse :=
  let project_id := arg args "project_id" in
  let merge_request_iid := arg args "merge_request_iid" in
  let title := arg args "title" in
  if negb (truthy project_id) || negb (truthy merge_request_iid) || negb (truthy title)
  then throw (newError "project_id, merge_request_iid, and title are required")
  else
    let* mr :=
      call api (MergeRequests_edit project_id merge_request_iid
                  (VObj [("title", title)])) in
    ret (textResponse (stringify mr)).

(** One [server.registerTool(name, { inputSchema }, callback)]. *)
Record Registration : Type :=
  { name : string;
    inputSchema : list (string * ZodType);
    handler : Args -> M MCPResponse }.

(** The callback of a registration:
    [async (args) => { try { return await handler(args) } catch (error) { return formatErrorResponse(error) } }] *)
Definition callback (r : Registration) (args : Args)
  : PState World -> MCPResponse * PState World :=
  tryCatch (handler r args).

(** The ten registrations of [createServer], in order. *)
Definition registeredTools : list Registration :=
  [ {| name := "get_projects";
       inputSchema := [("verbose", ZOptional ZBoolean)];
       handler := getProjects |};
    {| name := "list_open_merge_requests";
       inputSchema := [("project_id", ZNumber); ("verbose", ZOptional ZBoolean)];
       handler := listOpenMergeRequests |};
    {| name := "get_merge_request_details";
       inputSchema := [("project_id", ZNumber); ("merge_request_iid", ZNumber);
                       ("verbose", ZOptional ZBoolean)];
       handler := getMergeRequestDetails |};
    {| name := "get_merge_request_comments";
       inputSchema := [("project_id", ZNumber); ("merge_request_iid", ZNumber);
                       ("verbose", ZOptional ZBoolean)];
       handler := getMergeRequestComments |};
    {| name := "add_merge_request_comment";
       inputSchema := [("project_id", ZNumber); ("merge_request_iid", ZNumber);
                       ("comment", ZString)];
       handler := addMergeRequestComment |};
    {| name := "add_merge_request_diff_comment";
       inputSchema := [("project_id", ZNumber); ("merge_request_iid", ZNumber);
                       ("comment", ZString); ("base_sha", ZString);
                       ("start_sha", ZString); ("head_sha", ZString);
                       ("file_path", ZString); ("line_number", ZString)];
       handler := addMergeRequestDiffComment |};
    {| name := "get_merge_request_diff";
       inputSchema := [("project_id", ZNumber); ("merge_request_iid", ZNumber)];
       handler := getMergeRequestDiff |};
    {| name := "get_issue_details";
       inputSchema := [("project_id", ZNumber); ("issue_iid", ZNumber);
                       ("verbose", ZOptional ZBoolean)];
       handler := getIssueDetails |};
    {| name := "set_merge_request_description";
       inputSchema := [("project_id", ZNumber); ("merge_request_iid", ZNumber);
                       ("description", ZString)];
       handler := setMergeRequestDescription |};
    {| name := "set_merge_request_title";
       inputSchema := [("project_id", ZNumber); ("merge_request_iid", ZNumber);
                       ("title", ZString)];
       handler := setMergeRequestTitle |} ].
End Server.

End TS.

(** ** Vocabulary of the statements *)

(** [hay.startsWith(needle)] *)
Fixpoint startsWith (needle hay : string) : bool :=
  match needle, hay with
  | EmptyString, _ => true
  | String c needle', String d hay' => Ascii.eqb c d && startsWith needle' hay'
  | String _ _, EmptyString => false
  end.

(** [hay.includes(needle)] *)
Fixpoint includes (needle hay : string) : bool :=
  if startsWith needle hay then true
  else match hay with
       | EmptyString => false
       | String _ rest => includes needle rest
       end.

(** The object with exactly the fields [keys], in that order, each read
    off [raw]. *)
Definition pick (keys : list string) (raw : value) : value :=
  VObj (List.map (fun k => (k, readProp raw k)) keys).

Definition projectFields : list string :=
  ["id"; "description"; "name"; "path"; "path_with_namespace"; "web_url";
   "default_branch"].

Definition mergeRequestFields : list string :=
  ["iid"; "project_id"; "title"; "description"; "state"; "web_url"].

(** The notes of a discussion set, flattened: the notes of each discussion
    in turn (a [notes] property that is not an array counts as one note). *)
Definition flattenNotes (discussions : list value) : list value :=
  List.flat_map
    (fun discussion =>
       match readProp discussion "notes" with
       | VArr notes => notes
       | other => [other]
       end) discussions.

(** An unresolved note of the given kind: [resolved] is the boolean
    [false] and [type] is [kind]. *)
Definition unresolvedOfKind (kind : string) (note : value) : bool :=
  strictEqFalse (readProp note "resolved") && strictEqStr (readProp note "type") kind.

(** A note that [resolved === false] does not hold of. *)
Definition notUnresolved (note : value) : bool :=
  negb (strictEqFalse (readProp note "resolved")).

(** The entry of a note in the discussion-notes list and in the diff-notes
    list. *)
Definition discussionEntry (note : value) : value :=
  VObj [("id", readProp note "id"); ("noteable_id", readProp note "noteable_id");
        ("body", readProp note "body");
        ("author_name", readProp (readProp note "author") "name")].

Definition diffEntry (note : value) : value :=
  VObj [("id", readProp note "id"); ("noteable_id", readProp note "noteable_id");
        ("body", readProp note "body");
        ("author_name", readProp (readProp note "author") "name");
        ("position", readProp note "position")].

(** A note the entry callbacks can read: it is not null or undefined, and
    neither is its [author]. *)
Definition wellFormedNote (note : value) : Prop :=
  nullish note = false /\ nullish (readProp note "author") = false.

(** The provider call the handler of each tool makes on the arguments
    [args], an argument that is absent going in as [undefined] ([arg]). *)
Definition handlerCall (env : Env) (name : string) (args : Args) : option ApiCall :=
  if String.eqb name "get_projects" then
    Some (Projects_all (VObj (("membership", VBool true) :: projectFilter env)))
  else if String.eqb name "list_open_merge_requests" then
    Some (MergeRequests_all
            (VObj [("projectId", arg args "project_id"); ("state", VStr "opened")]))
  else if String.eqb name "get_merge_request_details" then
    Some (MergeRequests_show (arg args "project_id") (arg args "merge_request_iid"))
  else if String.eqb name "get_merge_request_comments" then
    Some (MergeRequestDiscussions_all (arg args "project_id")
            (arg args "merge_request_iid"))
  else if String.eqb name "add_merge_request_comment" then
    Some (MergeRequestDiscussions_create (arg args "project_id")
            (arg args "merge_request_iid") (arg args "comment") VUndef)
  else if String.eqb name "add_merge_request_diff_comment" then
    Some (MergeRequestDiscussions_create (arg args "project_id")
            (arg args "merge_request_iid") (arg args "comment")
            (VObj [("position",
                    VObj [("base_sha", arg args "base_sha");
                          ("start_sha", arg args "start_sha");
                          ("head_sha", arg args "head_sha");
                          ("old_path", arg args "file_path");
                          ("new_path", arg args "file_path");
                          ("position_type", VStr "text");
                          ("new_line", arg args "line_number")])]))
  else if String.eqb name "get_merge_request_diff" then
    Some (MergeRequests_allDiffs (arg args "project_id") (arg args "merge_request_iid"))
  else if String.eqb name "get_issue_details" then
    Some (Issues_show (arg args "issue_iid") (VObj [("projectId", arg args "project_id")]))
  else if String.eqb name "set_merge_request_description" then
    Some (MergeRequests_edit (arg args "project_id") (arg args "merge_request_iid")
            (VObj [("description", arg args "description")]))
  else if String.eqb name "set_merge_request_title" then
    Some (MergeRequests_edit (arg args "project_id") (arg args "merge_request_iid")
            (VObj [("title", arg args "title")]))
  else None.

Definition mergeRequestDetailsFields : list string :=
  ["title"; "description"; "state"; "web_url"; "target_branch"; "source_branch";
   "merge_status"; "detailed_merge_status"; "diff_refs"].

Definition issueFields : list string := ["title"; "description"].

(** A value other than [undefined]. *)
Definition isDefined (v : value) : bool :=
  match v with
  | VUndef => false
  | _ => true
  end.

(** The entries of a note when the author is read with [?.]: a note with
    no author gets an undefined [author_name]. *)
Definition tolerantDiscussionEntry (note : value) : value :=
  VObj [("id", readProp note "id"); ("noteable_id", readProp note "noteable_id");
        ("body", readProp note "body");
        ("author_name", optProp (readProp note "author") "name")].

Definition tolerantDiffEntry (note : value) : value :=
  VObj [("id", readProp note "id"); ("noteable_id", readProp note "noteable_id");
        ("body", readProp note "body");
        ("author_name", optProp (readProp note "author") "name");
        ("position", readProp note "position")].

(** An unresolved discussion or diff note: one the entry callbacks run on. *)
Definition isRetained (note : value) : bool :=
  unresolvedOfKind "DiscussionNote" note || unresolvedOfKind "DiffNote" note.

(** A computation that leaves the provider alone: no call, same state. *)
Definition pure {World A} (m : M World A) : Prop :=
  forall s, snd (m s) = s.


(** ** A sample provider

    A small GitLab stand-in for running the handlers: its state counts the
    requests it has served; a request for a merge request or an issue
    whose ids are not truthy is answered with a 404. *)

Definition notFound : Error :=
  {| message := "Not Found";
     cause := Some {| description := Some "404 Project Not Found" |} |}.

Definition sampleProject (id : Z) (name : string) : value :=
  VObj [("id", VNum id); ("description", VNull); ("name", VStr name);
        ("path", VStr name); ("path_with_namespace", VStr ("group/" +:+ name));
        ("web_url", VStr ("https://gitlab.example/group/" +:+ name));
        ("default_branch", VStr "main"); ("visibility", VStr "private");
        ("star_count", VNum 0)].

Definition sampleMergeRequest : value :=
  VObj [("id", VNum 9001); ("iid", VNum 4); ("project_id", VNum 1);
        ("title", VStr "Add parser"); ("description", VStr "");
        ("state", VStr "opened");
        ("web_url", VStr "https://gitlab.example/group/alpha/-/merge_requests/4");
        ("target_branch", VStr "main"); ("source_branch", VStr "parser");
        ("merge_status", VStr "can_be_merged");
        ("detailed_merge_status", VStr "mergeable");
        ("diff_refs", VObj [("base_sha", VStr "a1"); ("start_sha", VStr "b2");
                            ("head_sha", VStr "c3")]);
        ("upvotes", VNum 0)].

Definition sampleNote (id : Z) (kind : string) (resolved : value) : value :=
  VObj [("id", VNum id); ("type", VStr kind); ("noteable_id", VNum 9001);
        ("body", VStr "please rename"); ("author", VObj [("name", VStr "Ada")]);
        ("resolved", resolved);
        ("position", VObj [("new_path", VStr "src/main.ts"); ("new_line", VNum 42)])].

Definition sampleDiscussions : list value :=
  [ VObj [("id", VStr "d1");
          ("notes", VArr [sampleNote 1 "DiscussionNote" (VBool false);
                          sampleNote 2 "DiscussionNote" (VBool true)])];
    VObj [("id", VStr "d2");
          ("notes", VArr [sampleNote 3 "DiffNote" (VBool false);
                          sampleNote 4 "DiffNote" (VBool false);
                          sampleNote 5 "DiffNote" (VBool true)])];
    VObj [("id", VStr "d3");
          ("notes", VArr [sampleNote 6 "DiscussionNote" VUndef])] ].

Definition sampleApi (c : ApiCall) (served : nat) : (Error + value) * nat :=
  (match c with
   | Projects_all _ => inr (VArr [sampleProject 1 "alpha"; sampleProject 2 "beta"])
   | MergeRequests_all _ => inr (VArr [sampleMergeRequest])
   | MergeRequests_show projectId iid =>
       if truthy projectId && truthy iid then inr sampleMergeRequest else inl notFound
   | MergeRequestDiscussions_all projectId iid =>
       if truthy projectId && truthy iid then inr (VArr sampleDiscussions) else inl notFound
   | MergeRequestDiscussions_create projectId iid body options =>
       if truthy projectId && truthy iid
       then inr (VObj [("id", VStr "d9"); ("body", body)])
       else inl notFound
   | MergeRequests_allDiffs projectId iid =>
       if truthy projectId && truthy iid
       then inr (VArr [VObj [("new_path", VStr "src/main.ts"); ("diff", VStr "@@ -1 +1 @@")]])
       else inl notFound
   | Issues_show issueIId _ =>
       if truthy issueIId
       then inr (VObj [("iid", issueIId); ("title", VStr "Crash"); ("description", VNull)])
       else inl notFound
   | MergeRequests_edit projectId iid _ =>
       if truthy projectId && truthy iid then inr sampleMergeRequest else inl notFound
   end, S served).

(** A provider with nothing in it: every list is empty. *)
Definition emptyApi (c : ApiCall) (w : unit) : (Error + value) * unit :=
  (inr (VArr []), w).

(** A provider that answers every call with the same value. *)
Definition constApi (answer : value) (c : ApiCall) (w : unit) : (Error + value) * unit :=
  (inr answer, w).

(** A discussion whose only note is unresolved and has lost its author. *)
Definition orphanDiscussions : list value :=
  [ VObj [("id", VStr "d7");
          ("notes", VArr [VObj [("id", VNum 7); ("type", VStr "DiffNote");
                                ("noteable_id", VNum 9001); ("body", VStr "ghost");
                                ("resolved", VBool false)]])] ].

(** The sample discussions and one more, whose only note is resolved and
    has lost its author. *)
Definition mixedDiscussions : list value :=
  sampleDiscussions
  ++ [ VObj [("id", VStr "d8");
             ("notes", VArr [VObj [("id", VNum 8); ("type", VStr "DiffNote");
                                   ("noteable_id", VNum 9001); ("body", VStr "done");
                                   ("resolved", VBool true)]])] ].

Definition sampleEnv : Env :=
  {| MR_MCP_MIN_ACCESS_LEVEL := Some "30"; MR_MCP_PROJECT_SEARCH_TERM := Some "alpha" |}.

Definition noEnv : Env :=
  {| MR_MCP_MIN_ACCESS_LEVEL := None; MR_MCP_PROJECT_SEARCH_TERM := None |}.

(** The arguments of the diff comment in the specification's example. *)
Definition sampleDiffCommentArgs : Args :=
  list_to_map
    [("project_id", VNum 1); ("merge_request_iid", VNum 4);
     ("comment", VStr "please rename"); ("base_sha", VStr "a1");
     ("start_sha", VStr "b2"); ("head_sha", VStr "c3");
     ("file_path", VStr "src/main.ts"); ("line_number", VStr "42")].

Definition start {World} (w : World) : PState World :=
  {| world := w; calls := [] |}.

(** * Properties *)

(** ** The model at work *)

Example stringify_empty_array : stringify (VArr []) = Some "[]".
Proof. reflexivity. Qed.

Example stringify_sample :
  stringify (VObj [("id", VNum 7); ("gone", VUndef); ("tags", VArr [VStr "a"; VUndef])])
  = Some ("{" +:+ newline +:+ "  " +:+ quoteJSON "id" +:+ ": 7," +:+ newline
          +:+ "  " +:+ quoteJSON "tags" +:+ ": [" +:+ newline
          +:+ "    " +:+ quoteJSON "a" +:+ "," +:+ newline
          +:+ "    null" +:+ newline +:+ "  ]" +:+ newline +:+ "}").
Proof. reflexivity. Qed.

Example parseInt_30 : parseInt " 30px" = VNum 30.
Proof. reflexivity. Qed.

Example parseInt_nan : parseInt "maintainer" = VNaN.
Proof. reflexivity. Qed.

Example comments_sample :
  fst (JS.callTool sampleApi noEnv "get_merge_request_comments"
         (Some {[ "project_id" := VNum 1; "merge_request_iid" := VNum 4 ]}) (start 0))
  = textResponse
      (stringify
         (VObj [("disscussionNotes",
                 VArr [VObj [("id", VNum 1); ("noteable_id", VNum 9001);
                             ("body", VStr "please rename"); ("author_name", VStr "Ada")]]);
                ("diffNotes",
                 VArr [VObj [("id", VNum 3); ("noteable_id", VNum 9001);
                             ("body", VStr "please rename"); ("author_name", VStr "Ada");
                             ("position", VObj [("new_path", VStr "src/main.ts");
                                                ("new_line", VNum 42)])];
                       VObj [("id", VNum 4); ("noteable_id", VNum 9001);
                             ("body", VStr "please rename"); ("author_name", VStr "Ada");
                             ("position", VObj [("new_path", VStr "src/main.ts");
                                                ("new_line", VNum 42)])]])])).
Proof. vm_compute. reflexivity. Qed.

Example provider_error_sample :
  JS.callTool sampleApi noEnv "get_issue_details" (Some ∅) (start 0)
  = ({| content := [ {| type := "text";
                        text := Some "Error: Not Found - 404 Project Not Found" |} ];
        isError := Some true |},
     {| world := 1; calls := [Issues_show VUndef (VObj [("projectId", VUndef)])] |}).
Proof. vm_compute. reflexivity. Qed.

(** ** Running a computation *)

Section MonadFacts.
Context {World : Type}.
#[local] Abbreviation M := (M World).




Lemma bind_run {A B} (m : M A) (k : A -> M B) s a s1 :
  m s = (inr a, s1) -> bind m k s = k a s1.
Proof. unfold bind. intros ->. reflexivity. Qed.

Lemma bind_fail {A B} (m : M A) (k : A -> M B) s e s1 :
  m s = (inl e, s1) -> bind m k s = (inl e, s1).
Proof. unfold bind. intros ->. reflexivity. Qed.

Lemma tryCatch_state (body : M MCPResponse) s :
  snd (tryCatch body s) = snd (body s).
Proof. unfold tryCatch. destruct (body s) as [[e|r] s1]; reflexivity. Qed.

(** *** Computations that make no call *)

Lemma pure_ret {A} (a : A) : pure (ret a : M A).
Proof. intros s. reflexivity. Qed.

Lemma pure_throw {A} (e : Error) : pure (throw e : M A).
Proof. intros s. reflexivity. Qed.

Lemma pure_bind {A B} (m : M A) (k : A -> M B) :
  pure m -> (forall a, pure (k a)) -> pure (bind m k).
Proof.
  intros Hm Hk s. unfold bind. specialize (Hm s).
  destruct (m s) as [[e|a] s1]; simpl in *; subst; [reflexivity|apply Hk].
Qed.

Lemma pure_if {A} (b : bool) (m1 m2 : M A) :
  pure m1 -> pure m2 -> pure (if b then m1 else m2).
Proof. destruct b; auto. Qed.

Lemma pure_prop v k : pure (prop v k : M value).
Proof. unfold prop, cannotRead, typeError. apply pure_if; [apply pure_throw|apply pure_ret]. Qed.

Lemma pure_mapM {A B} (f : A -> M B) l : (forall x, pure (f x)) -> pure (mapM f l).
Proof.
  intros Hf. induction l as [|x rest IH]; simpl; [apply pure_ret|].
  apply pure_bind; [apply Hf|intros y].
  apply pure_bind; [apply IH|intros ys]. apply pure_ret.
Qed.

Lemma pure_filterM {A} (p : A -> M bool) l : (forall x, pure (p x)) -> pure (filterM p l).
Proof.
  intros Hp. induction l as [|x rest IH]; simpl; [apply pure_ret|].
  apply pure_bind; [apply Hp|intros keep].
  apply pure_bind; [apply IH|intros ys]. apply pure_ret.
Qed.

Lemma pure_arrayMap name (f : value -> M value) v :
  (forall x, pure (f x)) -> pure (arrayMap name f v).
Proof.
  intros Hf. destruct v; simpl; try apply pure_throw.
  apply pure_bind; [apply pure_mapM, Hf|intros]. apply pure_ret.
Qed.

Lemma pure_arrayFlatMap name (f : value -> M value) v :
  (forall x, pure (f x)) -> pure (arrayFlatMap name f v).
Proof.
  intros Hf. destruct v; simpl; try apply pure_throw.
  apply pure_bind; [apply pure_mapM, Hf|intros]. apply pure_ret.
Qed.

(** *** Callbacks that neither throw nor call *)

Lemma mapM_total {A B} (f : A -> M B) (g : A -> B) l s :
  Forall (fun x => f x s = (inr (g x), s)) l ->
  mapM f l s = (inr (List.map g l), s).
Proof.
  induction 1 as [|x rest Hx _ IH]; simpl; [reflexivity|].
  rewrite (bind_run _ _ _ _ _ Hx), (bind_run _ _ _ _ _ IH). reflexivity.
Qed.

Lemma filterM_total {A} (p : A -> M bool) (q : A -> bool) l s :
  Forall (fun x => p x s = (inr (q x), s)) l ->
  filterM p l s = (inr (List.filter q l), s).
Proof.
  induction 1 as [|x rest Hx _ IH]; simpl; [reflexivity|].
  rewrite (bind_run _ _ _ _ _ Hx), (bind_run _ _ _ _ _ IH).
  destruct (q x); reflexivity.
Qed.

Lemma prop_total v k (s : PState World) :
  nullish v = false -> prop v k s = (inr (readProp v k), s).
Proof. unfold prop. intros ->. reflexivity. Qed.

End MonadFacts.

Lemma arg_absent (args : Args) (k : string) : args !! k = None -> arg args k = VUndef.
Proof. unfold arg. intros ->. reflexivity. Qed.

Lemma arg_present (args : Args) (k : string) v : args !! k = Some v -> arg args k = v.
Proof. unfold arg. intros ->. reflexivity. Qed.


(** Proves that a computation built from [bind], [prop], [ret], [throw]
    and the array helpers makes no call. *)
Ltac purity :=
  repeat first
    [ apply pure_ret | apply pure_throw | apply pure_prop
    | apply pure_bind; [|intros ?]
    | apply pure_if
    | apply pure_arrayMap; intros ?
    | apply pure_arrayFlatMap; intros ?
    | apply pure_mapM; intros ?
    | apply pure_filterM; intros ? ].



(** ** The error translator *)

(** C3: for every error [e] the translator returns exactly one text item
    reading [Error: <message> - <d>] with the failure flag set, where [d]
    is the description of the cause when the error has a cause with a
    description that is not the empty string, and the literal
    [No additional details] in every other case. *)
Theorem formatErrorResponse_shape (e : Error) :
  exists d,
    formatErrorResponse e
    = {| content := [ {| type := "text";
                         text := Some ("Error: " +:+ message e +:+ " - " +:+ d) |} ];
         isError := Some true |}
    /\ ((exists c, cause e = Some c /\ description c = Some d /\ d <> "")
        \/ ((forall c, cause e = Some c -> description c = None \/ description c = Some "")
            /\ d = "No additional details")).
Proof.
  exists (orString (causeDescription e) "No additional details").
  split; [reflexivity|].
  unfold causeDescription, orString.
  destruct (cause e) as [c|] eqn:Hc.
  - destruct (description c) as [d|] eqn:Hd.
    + destruct (String.eqb_spec d "") as [->|Hne].
      * right. split; [|reflexivity]. intros c' [= <-]. right. exact Hd.
      * left. exists c. auto.
    + right. split; [|reflexivity]. intros c' [= <-]. left. exact Hd.
  - right. split; [|reflexivity]. intros c' [=].
Qed.

(** ** The dispatcher of the JavaScript server *)

Section Dispatcher.
Context {World : Type}.
Variable api : ApiCall -> World -> (Error + value) * World.
Variable env : Env.

Lemma handlerFor_unknown (name : string) :
  ~ In name (List.map JS.name JS.tools) -> JS.handlerFor api env name = None.
Proof.
  intros Hname. unfold JS.handlerFor.
  repeat match goal with
         | |- context [String.eqb name ?lit] =>
             destruct (String.eqb_spec name lit) as [->|_];
             [exfalso; apply Hname; simpl; tauto|]
         end.
  reflexivity.
Qed.

(** C8: for a name that is not the name of a registered tool, and any
    arguments, the switch selects no handler and the dispatcher returns the
    failure result [Error: Unknown tool: <name> - No additional details];
    the provider state and the call log are what they were. *)
Theorem unknown_tool_is_reported
  (name : string) (params : option Args) (s : PState World) :
  ~ In name (List.map JS.name JS.tools) ->
  JS.handlerFor api env name = None
  /\ JS.callTool api env name params s
     = ({| content := [ {| type := "text";
                           text := Some ("Error: Unknown tool: " +:+ name
                                         +:+ " - No additional details") |} ];
           isError := Some true |}, s).
Proof.
  intros Hname. pose proof (handlerFor_unknown name Hname) as Hnone.
  split; [exact Hnone|].
  unfold JS.callTool, JS.runTool, tryCatch. rewrite Hnone. reflexivity.
Qed.







End Dispatcher.

Lemma unknown_tool_is_reported_witness :
  ~ In "not_a_tool" (List.map JS.name JS.tools)
  /\ JS.handlerFor sampleApi noEnv "not_a_tool" = None
  /\ JS.callTool sampleApi noEnv "not_a_tool" (Some ∅) (start 0)
     = ({| content := [ {| type := "text";
                           text := Some "Error: Unknown tool: not_a_tool - No additional details" |} ];
           isError := Some true |}, start 0).
Proof.
  assert (Hname : ~ In "not_a_tool" (List.map JS.name JS.tools)).
  { simpl. intros H. repeat (destruct H as [H|H]; [discriminate H|]). exact H. }
  split; [exact Hname|].
  exact (unknown_tool_is_reported sampleApi noEnv "not_a_tool" (Some ∅) (start 0) Hname).
Defined.




(** *** [includes] *)

Lemma startsWith_app (n h b : string) :
  startsWith n h = true -> startsWith n (h +:+ b) = true.
Proof.
  revert h. induction n as [|c n IH]; intros h; [reflexivity|].
  destruct h as [|d h]; simpl; [discriminate|].
  destruct (Ascii.eqb c d); simpl; [apply IH|discriminate].
Qed.

Lemma includes_app_r (n h b : string) :
  includes n h = true -> includes n (h +:+ b) = true.
Proof.
  induction h as [|d h IH]; simpl.
  - destruct n; [|discriminate]. intros _. destruct b; reflexivity.
  - destruct (startsWith n (String d h)) eqn:Hp.
    + intros _. change (String d (h +:+ b)) with (String d h +:+ b).
      rewrite (startsWith_app _ _ b Hp). reflexivity.
    + intros Hh. rewrite (IH Hh).
      destruct (startsWith n (String d (h +:+ b))); reflexivity.
Qed.

Lemma includes_app_l (n a h : string) :
  includes n h = true -> includes n (a +:+ h) = true.
Proof.
  intros Hh. induction a as [|d a IH]; simpl; [exact Hh|].
  change (String.append a h) with (a +:+ h).
  rewrite IH. destruct (startsWith n (String d (a +:+ h))); reflexivity.
Qed.

Ltac unfold_js_goal :=
  first [ progress unfold JS.getProjects
        | progress unfold JS.listOpenMergeRequests
        | progress unfold JS.getMergeRequestDetails
        | progress unfold JS.getMergeRequestComments
        | progress unfold JS.addMergeRequestComment
        | progress unfold JS.addMergeRequestDiffComment
        | progress unfold JS.getMergeRequestDiff
        | progress unfold JS.getIssueDetails
        | progress unfold JS.setMergeRequestDescription
        | progress unfold JS.setMergeRequestTitle ].

Ltac unfold_ts_goal :=
  first [ progress unfold TS.getProjects
        | progress unfold TS.listOpenMergeRequests
        | progress unfold TS.getMergeRequestDetails
        | progress unfold TS.getMergeRequestComments
        | progress unfold TS.addMergeRequestComment
        | progress unfold TS.addMergeRequestDiffComment
        | progress unfold TS.getMergeRequestDiff
        | progress unfold TS.getIssueDetails
        | progress unfold TS.setMergeRequestDescription
        | progress unfold TS.setMergeRequestTitle ].

(** ** Required arguments *)

Section RequiredArguments.
Context {World : Type}.
Variable api : ApiCall -> World -> (Error + value) * World.
Variable env : Env.

Lemma one_call {A} c (k : value -> M World A) s :
  (forall v, pure (k v)) -> snd (bind (call api c) k s) = snd (call api c s).
Proof.
  intros Hk. unfold bind. destruct (call api c s) as [[e|v] s1]; simpl; [reflexivity|].
  apply Hk.
Qed.

Lemma call_state c s :
  snd (call api c s) = {| world := snd (api c (world s)); calls := calls s ++ [c] |}.
Proof. unfold call. destruct (api c (world s)); reflexivity. Qed.

(** The call each JavaScript handler makes, whatever the arguments. *)
Lemma js_handler_makes_its_call (tool : JS.Tool) (args : Args) (s : PState World) :
  In tool JS.tools ->
  exists c,
    handlerCall env (JS.name tool) args = Some c
    /\ snd (JS.callTool api env (JS.name tool) (Some args) s)
       = {| world := snd (api c (world s)); calls := calls s ++ [c] |}.
Proof.
  intros Htool. simpl in Htool.
  repeat (destruct Htool as [<-|Htool];
          [ eexists; split; [reflexivity|];
            unfold JS.callTool; rewrite tryCatch_state; unfold JS.runTool;
            simpl; unfold_js_goal;
            unfold JS.destructure; erewrite bind_run by reflexivity; cbv zeta;
            rewrite one_call; [apply call_state|]; intros ?; purity
          | ]).
  destruct Htool.
Qed.

(** The TypeScript handlers throw their own error, before anything else,
    as soon as one required argument is falsy. *)
Lemma ts_falsy_required (r : TS.Registration) (field : string) :
  In r (TS.registeredTools api env) ->
  In field (TS.requiredFields (TS.inputSchema r)) ->
  exists msg,
    includes field msg = true
    /\ includes "required" msg = true
    /\ forall (args : Args) (s : PState World),
         truthy (arg args field) = false ->
         TS.handler r args s = (inl (newError msg), s).
Proof.
  intros Hr Hfield. simpl in Hr.
  repeat (destruct Hr as [<-|Hr];
          [ simpl in Hfield;
            repeat (destruct Hfield as [<-|Hfield];
                    [ eexists; split; [|split];
                      [ | | intros args s Hfalsy; simpl;
                            unfold_ts_goal;
                            cbv zeta; rewrite Hfalsy; simpl negb;
                            rewrite ?orb_true_r; simpl; reflexivity ];
                      reflexivity
                    | ]);
            destruct Hfield
          | ]).
  destruct Hr.
Qed.

(** C1, as the code has it: in the TypeScript server, for every
    registered tool and every argument mapping that lacks one of the fields
    its input schema requires, the callback returns a failure result whose
    text names that field, and the provider state and the call log are what
    they were. In the JavaScript server no handler checks its arguments:
    for every tool and every argument mapping the handler makes the one
    provider call of that tool, built from the arguments as they are, an
    absent argument going in as [undefined]. *)
Theorem missing_argument_by_server :
  (forall (r : TS.Registration) (field : string) (args : Args) (s : PState World),
      In r (TS.registeredTools api env) ->
      In field (TS.requiredFields (TS.inputSchema r)) ->
      args !! field = None ->
      exists t,
        TS.callback r args s
        = ({| content := [ {| type := "text"; text := Some t |} ];
              isError := Some true |}, s)
        /\ includes field t = true)
  /\ (forall (tool : JS.Tool) (args : Args) (s : PState World),
        In tool JS.tools ->
        exists c,
          handlerCall env (JS.name tool) args = Some c
          /\ snd (JS.callTool api env (JS.name tool) (Some args) s)
             = {| world := snd (api c (world s)); calls := calls s ++ [c] |})
  /\ (forall (args : Args) (field : string),
        args !! field = None -> arg args field = VUndef).
Proof.
  split; [|split].
  - intros r field args s Hr Hfield Habsent.
    destruct (ts_falsy_required r field Hr Hfield) as (msg & Hnames & _ & Hthrow).
    exists ("Error: " +:+ msg +:+ " - No additional details"). split.
    + unfold TS.callback, tryCatch. rewrite Hthrow; [reflexivity|].
      rewrite (arg_absent _ _ Habsent). reflexivity.
    + apply includes_app_l, includes_app_r, Hnames.
  - intros tool args s Htool. apply js_handler_makes_its_call, Htool.
  - intros args field. apply arg_absent.
Qed.

(** C10: in the TypeScript server a required argument that is present but
    is the number 0 or the empty string is treated as missing: the handler
    throws its [required] error before anything else, the provider state
    and the call log are what they were, and the callback returns what it
    returns when the argument is left out. *)
Theorem falsy_argument_treated_as_missing
  (r : TS.Registration) (field : string) (args : Args) (s : PState World) :
  In r (TS.registeredTools api env) ->
  In field (TS.requiredFields (TS.inputSchema r)) ->
  args !! field = Some (VNum 0) \/ args !! field = Some (VStr "") ->
  exists msg,
    includes "required" msg = true
    /\ TS.handler r args s = (inl (newError msg), s)
    /\ TS.callback r args s = (formatErrorResponse (newError msg), s)
    /\ TS.callback r args s = TS.callback r (delete field args) s.
Proof.
  intros Hr Hfield Hfalsy.
  destruct (ts_falsy_required r field Hr Hfield) as (msg & _ & Hreq & Hthrow).
  assert (H1 : TS.handler r args s = (inl (newError msg), s)).
  { apply Hthrow. destruct Hfalsy as [H|H]; rewrite (arg_present _ _ _ H); reflexivity. }
  assert (H2 : TS.handler r (delete field args) s = (inl (newError msg), s)).
  { apply Hthrow. rewrite arg_absent; [reflexivity|]. apply lookup_delete_eq. }
  exists msg. unfold TS.callback, tryCatch. rewrite H1, H2. auto.
Qed.

(** C7, as the code has it. JavaScript server: for every argument mapping
    the handler makes one create-discussion call whose position carries
    [base_sha], [start_sha] and [head_sha] as supplied, [file_path] as both
    [old_path] and [new_path], the position type [text] and [line_number]
    as [new_line]; nothing is checked first, an argument left out is passed
    on as [undefined]. TypeScript server: when the eight arguments are all
    truthy the one call is the same with camel-case keys; when one of the
    eight is left out the callback returns the failure result of the
    [required] error and no call is made. *)
Theorem diff_comment_position :
  (forall (args : Args) (s : PState World),
      calls (snd (JS.callTool api env "add_merge_request_diff_comment" (Some args) s))
      = calls s
        ++ [MergeRequestDiscussions_create
              (arg args "project_id") (arg args "merge_request_iid") (arg args "comment")
              (VObj [("position",
                      VObj [("base_sha", arg args "base_sha");
                            ("start_sha", arg args "start_sha");
                            ("head_sha", arg args "head_sha");
                            ("old_path", arg args "file_path");
                            ("new_path", arg args "file_path");
                            ("position_type", VStr "text");
                            ("new_line", arg args "line_number")])])])
  /\ (forall (args : Args) (s : PState World),
        Forall (fun field => truthy (arg args field) = true)
          ["project_id"; "merge_request_iid"; "comment"; "base_sha"; "start_sha";
           "head_sha"; "file_path"; "line_number"] ->
        calls (snd (tryCatch (TS.addMergeRequestDiffComment api args) s))
        = calls s
          ++ [MergeRequestDiscussions_create
                (arg args "project_id") (arg args "merge_request_iid") (arg args "comment")
                (VObj [("position",
                        VObj [("baseSha", arg args "base_sha");
                              ("startSha", arg args "start_sha");
                              ("headSha", arg args "head_sha");
                              ("oldPath", arg args "file_path");
                              ("newPath", arg args "file_path");
                              ("positionType", VStr "text");
                              ("newLine", arg args "line_number")])])])
  /\ (forall (field : string) (args : Args) (s : PState World),
        In field ["project_id"; "merge_request_iid"; "comment"; "base_sha"; "start_sha";
                  "head_sha"; "file_path"; "line_number"] ->
        args !! field = None ->
        tryCatch (TS.addMergeRequestDiffComment api args) s
        = (formatErrorResponse
             (newError "project_id, merge_request_iid, comment, base_sha, start_sha, head_sha, file_path, and line_number are required"),
           s)).
Proof.
  split; [|split].
  - intros args s. unfold JS.callTool. rewrite tryCatch_state.
    unfold JS.runTool. simpl. unfold JS.addMergeRequestDiffComment, JS.destructure.
    erewrite bind_run by reflexivity. cbv zeta.
    rewrite one_call by (intros ?; purity). rewrite call_state. reflexivity.
  - intros args s Hall. rewrite tryCatch_state.
    unfold TS.addMergeRequestDiffComment. cbv zeta.
    repeat match goal with
           | H : Forall _ (_ :: _) |- _ =>
               let Hx := fresh "Hx" in
               apply Forall_cons_1 in H; destruct H as [Hx H]; rewrite Hx
           end.
    simpl. rewrite one_call by (intros ?; purity). rewrite call_state. reflexivity.
  - intros field args s Hfield Habsent. simpl in Hfield.
    unfold tryCatch, TS.addMergeRequestDiffComment. cbv zeta.
    repeat (destruct Hfield as [<-|Hfield];
            [ rewrite (arg_absent _ _ Habsent); simpl negb;
              rewrite ?orb_true_r; reflexivity | ]).
    destruct Hfield.
Qed.
End RequiredArguments.

(** The JavaScript server asked for the details of a merge request with no
    argument at all: [project_id] is required and absent, yet the provider
    is called (with [undefined] twice) and serves the request; the failure
    text is the provider's and names no field. *)
Lemma js_missing_argument_reaches_provider :
  In "project_id" ["project_id"; "merge_request_iid"]
  /\ (∅ : Args) !! "project_id" = None
  /\ JS.callTool sampleApi noEnv "get_merge_request_details" (Some ∅) (start 0)
     = ({| content := [ {| type := "text";
                           text := Some "Error: Not Found - 404 Project Not Found" |} ];
           isError := Some true |},
        {| world := 1; calls := [MergeRequests_show VUndef VUndef] |})
  /\ includes "project_id" "Error: Not Found - 404 Project Not Found" = false.
Proof.
  split; [simpl; tauto|]. split; [reflexivity|]. split; vm_compute; reflexivity.
Qed.

Lemma missing_argument_by_server_witness :
  In "merge_request_iid"
    (TS.requiredFields
       [("project_id", TS.ZNumber); ("merge_request_iid", TS.ZNumber);
        ("verbose", TS.ZOptional TS.ZBoolean)])
  /\ ({[ "project_id" := VNum 1 ]} : Args) !! "merge_request_iid" = None
  /\ (exists t,
        tryCatch (TS.getMergeRequestDetails sampleApi {[ "project_id" := VNum 1 ]}) (start 0)
        = ({| content := [ {| type := "text"; text := Some t |} ]; isError := Some true |},
           start 0)
        /\ includes "merge_request_iid" t = true)
  /\ snd (JS.callTool sampleApi noEnv "get_merge_request_details"
            (Some {[ "project_id" := VNum 1 ]}) (start 0))
     = {| world := 1; calls := [MergeRequests_show (VNum 1) VUndef] |}.
Proof.
  assert (Hfield : In "merge_request_iid"
                     (TS.requiredFields
                        [("project_id", TS.ZNumber); ("merge_request_iid", TS.ZNumber);
                         ("verbose", TS.ZOptional TS.ZBoolean)])).
  { simpl. tauto. }
  assert (Habsent : ({[ "project_id" := VNum 1 ]} : Args) !! "merge_request_iid" = None).
  { reflexivity. }
  destruct (missing_argument_by_server sampleApi noEnv) as (Hts & Hjs & _).
  split; [exact Hfield|]. split; [exact Habsent|]. split.
  - refine (Hts {| TS.name := "get_merge_request_details";
                   TS.inputSchema :=
                     [("project_id", TS.ZNumber); ("merge_request_iid", TS.ZNumber);
                      ("verbose", TS.ZOptional TS.ZBoolean)];
                   TS.handler := TS.getMergeRequestDetails sampleApi |}
              "merge_request_iid" {[ "project_id" := VNum 1 ]} (start 0) _ Hfield Habsent).
    simpl. tauto.
  - destruct (Hjs {| JS.name := "get_merge_request_details";
                     JS.properties := [("project_id", "number");
                                       ("merge_request_iid", "number");
                                       ("verbose", "boolean")];
                     JS.required := ["project_id"; "merge_request_iid"] |}
                {[ "project_id" := VNum 1 ]} (start 0)) as (c & Hc & Hstate).
    + simpl. tauto.
    + vm_compute in Hc. injection Hc as <-. exact Hstate.
Defined.

Lemma falsy_argument_treated_as_missing_witness :
  exists msg,
    includes "required" msg = true
    /\ TS.addMergeRequestComment sampleApi
         {[ "project_id" := VNum 1; "merge_request_iid" := VNum 4; "comment" := VStr "" ]}
         (start 0)
       = (inl (newError msg), start 0)
    /\ tryCatch (TS.addMergeRequestComment sampleApi
                   {[ "project_id" := VNum 1; "merge_request_iid" := VNum 4;
                      "comment" := VStr "" ]}) (start 0)
       = (formatErrorResponse (newError msg), start 0)
    /\ tryCatch (TS.addMergeRequestComment sampleApi
                   {[ "project_id" := VNum 1; "merge_request_iid" := VNum 4;
                      "comment" := VStr "" ]}) (start 0)
       = tryCatch (TS.addMergeRequestComment sampleApi
                     (delete "comment"
                        ({[ "project_id" := VNum 1; "merge_request_iid" := VNum 4;
                            "comment" := VStr "" ]} : Args))) (start 0).
Proof.
  refine (falsy_argument_treated_as_missing sampleApi noEnv
            {| TS.name := "add_merge_request_comment";
               TS.inputSchema :=
                 [("project_id", TS.ZNumber); ("merge_request_iid", TS.ZNumber);
                  ("comment", TS.ZString)];
               TS.handler := TS.addMergeRequestComment sampleApi |}
            "comment"
            {[ "project_id" := VNum 1; "merge_request_iid" := VNum 4; "comment" := VStr "" ]}
            (start 0) _ _ _).
  - simpl. tauto.
  - simpl. tauto.
  - right. reflexivity.
Defined.

(** The JavaScript server given seven of the eight arguments of a diff
    comment ([line_number] is left out): nothing fails, the discussion is
    created with [new_line] undefined. *)
Lemma js_diff_comment_without_line_is_sent :
  (delete "line_number" sampleDiffCommentArgs) !! "line_number" = None
  /\ JS.callTool sampleApi noEnv "add_merge_request_diff_comment"
       (Some (delete "line_number" sampleDiffCommentArgs)) (start 0)
     = (textResponse
          (stringify (VObj [("id", VStr "d9"); ("body", VStr "please rename")])),
        {| world := 1;
           calls :=
             [MergeRequestDiscussions_create (VNum 1) (VNum 4) (VStr "please rename")
                (VObj [("position",
                        VObj [("base_sha", VStr "a1"); ("start_sha", VStr "b2");
                              ("head_sha", VStr "c3"); ("old_path", VStr "src/main.ts");
                              ("new_path", VStr "src/main.ts");
                              ("position_type", VStr "text");
                              ("new_line", VUndef)])])] |}).
Proof. split; vm_compute; reflexivity. Qed.

Lemma diff_comment_position_witness :
  calls (snd (JS.callTool sampleApi noEnv "add_merge_request_diff_comment"
                (Some sampleDiffCommentArgs) (start 0)))
  = [MergeRequestDiscussions_create (VNum 1) (VNum 4) (VStr "please rename")
       (VObj [("position",
               VObj [("base_sha", VStr "a1"); ("start_sha", VStr "b2");
                     ("head_sha", VStr "c3"); ("old_path", VStr "src/main.ts");
                     ("new_path", VStr "src/main.ts"); ("position_type", VStr "text");
                     ("new_line", VStr "42")])])]
  /\ calls (snd (tryCatch (TS.addMergeRequestDiffComment sampleApi sampleDiffCommentArgs)
                   (start 0)))
     = [MergeRequestDiscussions_create (VNum 1) (VNum 4) (VStr "please rename")
          (VObj [("position",
                  VObj [("baseSha", VStr "a1"); ("startSha", VStr "b2");
                        ("headSha", VStr "c3"); ("oldPath", VStr "src/main.ts");
                        ("newPath", VStr "src/main.ts"); ("positionType", VStr "text");
                        ("newLine", VStr "42")])])]
  /\ tryCatch (TS.addMergeRequestDiffComment sampleApi
                 (delete "line_number" sampleDiffCommentArgs)) (start 0)
     = (formatErrorResponse
          (newError "project_id, merge_request_iid, comment, base_sha, start_sha, head_sha, file_path, and line_number are required"),
        start 0).
Proof.
  destruct (diff_comment_position sampleApi noEnv) as (Hjs & Hts & Hmissing).
  split; [exact (Hjs sampleDiffCommentArgs (start 0))|].
  split.
  - apply (Hts sampleDiffCommentArgs (start 0)).
    repeat constructor.
  - apply (Hmissing "line_number"); [simpl; tauto|reflexivity].
Defined.

(** ** Response shaping *)

Section Shaping.
Context {World : Type}.
Variable api : ApiCall -> World -> (Error + value) * World.
Variable env : Env.

Lemma call_run c (s : PState World) r w' :
  api c (world s) = (r, w') ->
  call api c s = (r, {| world := w'; calls := calls s ++ [c] |}).
Proof. unfold call. intros ->. reflexivity. Qed.

Lemma filterProject_total p (s : PState World) :
  nullish p = false -> filterProject p s = (inr (pick projectFields p), s).
Proof. intros Hp. unfold filterProject, bind, prop. rewrite Hp. reflexivity. Qed.

Lemma filterMergeRequest_total mr (s : PState World) :
  nullish mr = false -> filterMergeRequest mr s = (inr (pick mergeRequestFields mr), s).
Proof. intros Hp. unfold filterMergeRequest, bind, prop. rewrite Hp. reflexivity. Qed.

Lemma arrayMap_total name (f : value -> M World value) (g : value -> value) raw s :
  Forall (fun x => f x s = (inr (g x), s)) raw ->
  arrayMap name f (VArr raw) s = (inr (VArr (List.map g raw)), s).
Proof.
  intros Hf. simpl. rewrite (bind_run _ _ _ _ _ (mapM_total f g raw s Hf)). reflexivity.
Qed.

Lemma lookup_map (g : value -> value) (raw : list value) i p :
  raw !! i = Some p -> List.map g raw !! i = Some (g p).
Proof.
  revert i. induction raw as [|x raw IH]; intros [|i]; simpl; try discriminate.
  - intros [= ->]. reflexivity.
  - apply IH.
Qed.

(** C5, as the code has it: when the provider answers with a list of
    values that are not null or undefined and [verbose] is not set,
    [get_projects] and [list_open_merge_requests] serialise a list [out]
    as long as the raw list whose i-th element is the object with exactly
    the fields of the projection, in the projection's order, each read off
    the i-th raw element ([undefined] when the raw element lacks it);
    [get_projects] serialises it when the list is not empty and returns
    its sentence when it is empty. The raw list is only read:
    the values of the model cannot be changed in place. The TypeScript
    handlers return the same (the second once [project_id] is truthy). *)
Theorem filtered_lists_are_fieldwise_projections :
  (forall (args : Args) (s : PState World) (raw : list value) (w' : World),
      truthy (argOr args "verbose" (VBool false)) = false ->
      Forall (fun p => nullish p = false) raw ->
      api (Projects_all (VObj (("membership", VBool true) :: projectFilter env))) (world s)
      = (inr (VArr raw), w') ->
      exists out,
        length out = length raw
        /\ (forall i p, raw !! i = Some p -> out !! i = Some (pick projectFields p))
        /\ fst (JS.callTool api env "get_projects" (Some args) s)
           = textResponse (if (0 <? length raw)%nat then stringify (VArr out)
                           else Some "No projects found.")
        /\ fst (tryCatch (TS.getProjects api env args) s)
           = fst (JS.callTool api env "get_projects" (Some args) s))
  /\ (forall (args : Args) (s : PState World) (raw : list value) (w' : World),
        truthy (argOr args "verbose" (VBool false)) = false ->
        Forall (fun mr => nullish mr = false) raw ->
        api (MergeRequests_all
               (VObj [("projectId", arg args "project_id"); ("state", VStr "opened")]))
          (world s)
        = (inr (VArr raw), w') ->
        exists out,
          length out = length raw
          /\ (forall i mr, raw !! i = Some mr -> out !! i = Some (pick mergeRequestFields mr))
          /\ fst (JS.callTool api env "list_open_merge_requests" (Some args) s)
             = textResponse (stringify (VArr out))
          /\ (truthy (arg args "project_id") = true ->
              fst (tryCatch (TS.listOpenMergeRequests api args) s)
              = textResponse (stringify (VArr out)))).
Proof.
  split.
  - intros args s raw w' Hverbose Hraw Hapi.
    exists (List.map (pick projectFields) raw).
    split; [apply length_map|]. split; [intros i p; apply lookup_map|].
    split; [|reflexivity].
    unfold JS.callTool, tryCatch, JS.runTool. simpl.
    unfold JS.getProjects, JS.destructure.
    erewrite bind_run by reflexivity. cbv zeta.
    rewrite (bind_run _ _ _ _ _ (call_run _ _ _ _ Hapi)). rewrite Hverbose.
    erewrite bind_run.
    2:{ apply arrayMap_total. eapply Forall_impl; [exact Hraw|].
        intros p Hp. apply filterProject_total, Hp. }
    simpl. rewrite length_map. reflexivity.
  - intros args s raw w' Hverbose Hraw Hapi.
    exists (List.map (pick mergeRequestFields) raw).
    split; [apply length_map|]. split; [intros i p; apply lookup_map|].
    assert (Hmap : arrayMap "mergeRequests" filterMergeRequest (VArr raw)
                     {| world := w';
                        calls := calls s
                                 ++ [MergeRequests_all
                                       (VObj [("projectId", arg args "project_id");
                                              ("state", VStr "opened")])] |}
                   = (inr (VArr (List.map (pick mergeRequestFields) raw)),
                      {| world := w';
                         calls := calls s
                                  ++ [MergeRequests_all
                                        (VObj [("projectId", arg args "project_id");
                                               ("state", VStr "opened")])] |})).
    { apply arrayMap_total. eapply Forall_impl; [exact Hraw|].
      intros p Hp. apply filterMergeRequest_total, Hp. }
    split.
    + unfold JS.callTool, tryCatch, JS.runTool. simpl.
      unfold JS.listOpenMergeRequests, JS.destructure.
      erewrite bind_run by reflexivity. cbv zeta.
      rewrite (bind_run _ _ _ _ _ (call_run _ _ _ _ Hapi)). rewrite Hverbose.
      rewrite (bind_run _ _ _ _ _ Hmap). reflexivity.
    + intros Hid. unfold tryCatch, TS.listOpenMergeRequests. cbv zeta.
      rewrite Hid. cbn [negb].
      rewrite (bind_run _ _ _ _ _ (call_run _ _ _ _ Hapi)). rewrite Hverbose.
      rewrite (bind_run _ _ _ _ _ Hmap). reflexivity.
Qed.

(** C6: when the provider answers [get_projects] with the empty list, the
    result text is the sentence [No projects found.], and when it answers
    [get_merge_request_diff] with the empty list, the result text is the
    sentence [No diff data available for this merge request.], in both
    servers and whatever [verbose] is (the TypeScript diff handler first
    wants its two ids truthy); neither text is the serialisation of the
    empty array, which is the two characters [[]]. *)
Theorem empty_collections_give_sentences :
  (forall (args : Args) (s : PState World) (w' : World),
      api (Projects_all (VObj (("membership", VBool true) :: projectFilter env))) (world s)
      = (inr (VArr []), w') ->
      fst (JS.callTool api env "get_projects" (Some args) s)
      = textResponse (Some "No projects found.")
      /\ fst (tryCatch (TS.getProjects api env args) s)
         = textResponse (Some "No projects found."))
  /\ (forall (args : Args) (s : PState World) (w' : World),
        api (MergeRequests_allDiffs (arg args "project_id") (arg args "merge_request_iid"))
          (world s)
        = (inr (VArr []), w') ->
        fst (JS.callTool api env "get_merge_request_diff" (Some args) s)
        = textResponse (Some "No diff data available for this merge request.")
        /\ (truthy (arg args "project_id") = true ->
            truthy (arg args "merge_request_iid") = true ->
            fst (tryCatch (TS.getMergeRequestDiff api args) s)
            = textResponse (Some "No diff data available for this merge request.")))
  /\ stringify (VArr []) = Some "[]"
  /\ "No projects found." <> "[]"
  /\ "No diff data available for this merge request." <> "[]".
Proof.
  split; [|split; [|split; [reflexivity|split; discriminate]]].
  - intros args s w' Hapi.
    assert (Hjs : fst (JS.callTool api env "get_projects" (Some args) s)
                  = textResponse (Some "No projects found.")).
    { unfold JS.callTool, tryCatch, JS.runTool. simpl.
      unfold JS.getProjects, JS.destructure.
      erewrite bind_run by reflexivity. cbv zeta.
      rewrite (bind_run _ _ _ _ _ (call_run _ _ _ _ Hapi)).
      destruct (truthy (argOr args "verbose" (VBool false))); reflexivity. }
    split; [exact Hjs|]. rewrite <- Hjs. reflexivity.
  - intros args s w' Hapi. split.
    + unfold JS.callTool, tryCatch, JS.runTool. simpl.
      unfold JS.getMergeRequestDiff, JS.destructure.
      erewrite bind_run by reflexivity. cbv zeta.
      rewrite (bind_run _ _ _ _ _ (call_run _ _ _ _ Hapi)). reflexivity.
    + intros Hid Hiid. unfold tryCatch, TS.getMergeRequestDiff. cbv zeta.
      rewrite Hid, Hiid. cbn [negb orb].
      rewrite (bind_run _ _ _ _ _ (call_run _ _ _ _ Hapi)). reflexivity.
Qed.

(** C9: [list_open_merge_requests] has no sentence for the empty case:
    when the provider answers with the empty list the result text is the
    JSON text of the empty array, the two characters [[]], in non-verbose
    mode and in verbose mode alike, in the JavaScript server and (once
    [project_id] is truthy) in the TypeScript server. *)
Theorem no_open_merge_requests_gives_empty_array
  (args : Args) (s : PState World) (w' : World) :
  api (MergeRequests_all
         (VObj [("projectId", arg args "project_id"); ("state", VStr "opened")]))
    (world s)
  = (inr (VArr []), w') ->
  fst (JS.callTool api env "list_open_merge_requests" (Some args) s)
  = textResponse (Some "[]")
  /\ (truthy (arg args "project_id") = true ->
      fst (tryCatch (TS.listOpenMergeRequests api args) s) = textResponse (Some "[]")).
Proof.
  intros Hapi. split.
  - unfold JS.callTool, tryCatch, JS.runTool. simpl.
    unfold JS.listOpenMergeRequests, JS.destructure.
    erewrite bind_run by reflexivity. cbv zeta.
    rewrite (bind_run _ _ _ _ _ (call_run _ _ _ _ Hapi)).
    destruct (truthy (argOr args "verbose" (VBool false))); reflexivity.
  - intros Hid. unfold tryCatch, TS.listOpenMergeRequests. cbv zeta.
    rewrite Hid. cbn [negb].
    rewrite (bind_run _ _ _ _ _ (call_run _ _ _ _ Hapi)).
    destruct (truthy (argOr args "verbose" (VBool false))); reflexivity.
Qed.
(** *** Comment partitioning *)

Lemma flat_map_map {A B C} (f : B -> list C) (g : A -> B) (l : list A) :
  List.flat_map f (List.map g l) = List.flat_map (fun x => f (g x)) l.
Proof. induction l as [|x l IH]; simpl; [reflexivity|]. rewrite IH. reflexivity. Qed.

Lemma filter_twice {A} (p q : A -> bool) (l : list A) :
  List.filter q (List.filter p l) = List.filter (fun x => p x && q x) l.
Proof.
  induction l as [|x l IH]; simpl; [reflexivity|].
  destruct (p x); simpl; [destruct (q x)|]; rewrite IH; reflexivity.
Qed.

Lemma Forall_filter_keeps {A} (P : A -> Prop) (q : A -> bool) (l : list A) :
  Forall P l -> Forall P (List.filter q l).
Proof.
  induction 1 as [|x l Hx _ IH]; simpl; [constructor|].
  destruct (q x); [constructor; assumption|assumption].
Qed.

Lemma flatten_total (discussions : list value) (s : PState World) :
  Forall (fun d => nullish d = false) discussions ->
  arrayFlatMap "discussions" (fun note => prop note "notes") (VArr discussions) s
  = (inr (flattenNotes discussions), s).
Proof.
  intros Hd. simpl.
  erewrite bind_run.
  2:{ apply (mapM_total _ (fun d => readProp d "notes")).
      eapply Forall_impl; [exact Hd|]. intros d Hn. apply prop_total, Hn. }
  unfold ret, flattenNotes. rewrite flat_map_map. do 2 f_equal.
  apply List.flat_map_ext. intros d. destruct (readProp d "notes"); reflexivity.
Qed.

Lemma isUnresolved_total note (s : PState World) :
  nullish note = false ->
  isUnresolved note s = (inr (strictEqFalse (readProp note "resolved")), s).
Proof. intros Hn. unfold isUnresolved, bind, prop. rewrite Hn. reflexivity. Qed.

Lemma hasType_total kind note (s : PState World) :
  nullish note = false ->
  hasType kind note s = (inr (strictEqStr (readProp note "type") kind), s).
Proof. intros Hn. unfold hasType, bind, prop. rewrite Hn. reflexivity. Qed.

Lemma js_filterDiscussionNote_total note (s : PState World) :
  nullish note = false -> nullish (readProp note "author") = false ->
  JS.filterDiscussionNote note s = (inr (discussionEntry note), s).
Proof.
  intros Hn Ha. unfold JS.filterDiscussionNote, bind, prop. rewrite Hn. simpl.
  rewrite Ha. reflexivity.
Qed.

Lemma js_filterDiffNote_total note (s : PState World) :
  nullish note = false -> nullish (readProp note "author") = false ->
  JS.filterDiffNote note s = (inr (diffEntry note), s).
Proof.
  intros Hn Ha. unfold JS.filterDiffNote, bind, prop. rewrite Hn. simpl.
  rewrite Ha. reflexivity.
Qed.

Lemma ts_filterDiscussionNote_total note (s : PState World) :
  nullish note = false -> nullish (readProp note "author") = false ->
  TS.filterDiscussionNote note s = (inr (discussionEntry note), s).
Proof.
  intros Hn Ha. unfold TS.filterDiscussionNote, bind, prop, optProp. rewrite Hn. simpl.
  rewrite Ha. reflexivity.
Qed.

Lemma ts_filterDiffNote_total note (s : PState World) :
  nullish note = false -> nullish (readProp note "author") = false ->
  TS.filterDiffNote note s = (inr (diffEntry note), s).
Proof.
  intros Hn Ha. unfold TS.filterDiffNote, bind, prop, optProp. rewrite Hn. simpl.
  rewrite Ha. reflexivity.
Qed.

Lemma retained_of_kind (kind : string) (notes : list value) (P : value -> Prop) :
  kind = "DiscussionNote" \/ kind = "DiffNote" ->
  Forall P (List.filter isRetained notes) ->
  Forall P (List.filter (unresolvedOfKind kind) notes).
Proof.
  intros Hkind. rewrite !Forall_forall. intros HP note Hin.
  apply list_elem_of_In, List.filter_In in Hin. destruct Hin as [Hin Hk].
  apply HP, list_elem_of_In, List.filter_In. split; [exact Hin|].
  unfold isRetained. destruct Hkind as [-> | ->]; rewrite Hk; auto using orb_true_r.
Qed.

(** The two lists the handlers build, for either server's pair of entry
    callbacks, when the callbacks succeed on the notes they are run on. *)
Lemma partition_total
  (entryDiscussion entryDiff : value -> M World value)
  (discussions : list value) (s : PState World) :
  Forall (fun d => nullish d = false) discussions ->
  Forall (fun note => nullish note = false) (flattenNotes discussions) ->
  Forall (fun note => entryDiscussion note s = (inr (discussionEntry note), s))
    (List.filter (unresolvedOfKind "DiscussionNote") (flattenNotes discussions)) ->
  Forall (fun note => entryDiff note s = (inr (diffEntry note), s))
    (List.filter (unresolvedOfKind "DiffNote") (flattenNotes discussions)) ->
  (let* flattened :=
     arrayFlatMap "discussions" (fun note => prop note "notes") (VArr discussions) in
   let* unresolvedNotes := arrayFilter isUnresolved flattened in
   let* discussionKind := arrayFilter (hasType "DiscussionNote") unresolvedNotes in
   let* disscussionNotes := mapM entryDiscussion discussionKind in
   let* diffKind := arrayFilter (hasType "DiffNote") unresolvedNotes in
   let* diffNotes := mapM entryDiff diffKind in
   ret (VObj [("disscussionNotes", VArr disscussionNotes); ("diffNotes", VArr diffNotes)])) s
  = (inr (VObj [("disscussionNotes",
                 VArr (List.map discussionEntry
                         (List.filter (unresolvedOfKind "DiscussionNote")
                            (flattenNotes discussions))));
                ("diffNotes",
                 VArr (List.map diffEntry
                         (List.filter (unresolvedOfKind "DiffNote")
                            (flattenNotes discussions))))]), s).
Proof.
  intros Hd Hnotes Hdisc Hdiff.
  set (notes := flattenNotes discussions) in *.
  set (unresolved := List.filter (fun n => strictEqFalse (readProp n "resolved")) notes).
  assert (Hunres : Forall (fun note => nullish note = false) unresolved)
    by (apply Forall_filter_keeps, Hnotes).
  rewrite (bind_run _ _ _ _ _ (flatten_total discussions s Hd)). fold notes.
  unfold arrayFilter.
  erewrite bind_run.
  2:{ apply (filterM_total _ (fun n => strictEqFalse (readProp n "resolved"))).
      eapply Forall_impl; [exact Hnotes|]. intros n Hn. apply isUnresolved_total, Hn. }
  fold unresolved.
  erewrite bind_run.
  2:{ apply (filterM_total _ (fun n => strictEqStr (readProp n "type") "DiscussionNote")).
      eapply Forall_impl; [exact Hunres|]. intros n Hn. apply hasType_total, Hn. }
  unfold unresolved at 1. rewrite filter_twice.
  erewrite bind_run.
  2:{ apply (mapM_total _ discussionEntry). exact Hdisc. }
  erewrite bind_run.
  2:{ apply (filterM_total _ (fun n => strictEqStr (readProp n "type") "DiffNote")).
      eapply Forall_impl; [exact Hunres|]. intros n Hn. apply hasType_total, Hn. }
  unfold unresolved. rewrite filter_twice.
  erewrite bind_run.
  2:{ apply (mapM_total _ diffEntry). exact Hdiff. }
  reflexivity.
Qed.

(** C4, as the code has it: for a discussion set whose discussions and
    flattened notes are not null or undefined and whose unresolved
    discussion and diff notes (the notes an entry is built from) have an
    author, the non-verbose [get_merge_request_comments] serialises an
    object with two lists: the discussion-notes list has one entry for
    each flattened note with [resolved === false] and type
    [DiscussionNote] (N entries), the diff-notes list one for each with
    [resolved === false] and type [DiffNote] (M entries), in the order of
    the flattened notes; a note for which [resolved === false] does not
    hold is of neither kind, so none of these K notes has an entry, with
    or without an author. The TypeScript server, once the two ids are
    truthy, returns the same result. *)
Theorem comments_are_partitioned
  (args : Args) (s : PState World) (discussions : list value) (w' : World) :
  truthy (argOr args "verbose" (VBool false)) = false ->
  api (MergeRequestDiscussions_all (arg args "project_id") (arg args "merge_request_iid"))
    (world s)
  = (inr (VArr discussions), w') ->
  Forall (fun d => nullish d = false) discussions ->
  Forall (fun note => nullish note = false) (flattenNotes discussions) ->
  Forall (fun note => nullish (readProp note "author") = false)
    (List.filter isRetained (flattenNotes discussions)) ->
  exists disscussionNotes diffNotes,
    fst (JS.callTool api env "get_merge_request_comments" (Some args) s)
    = textResponse
        (stringify (VObj [("disscussionNotes", VArr disscussionNotes);
                          ("diffNotes", VArr diffNotes)]))
    /\ disscussionNotes
       = List.map discussionEntry
           (List.filter (unresolvedOfKind "DiscussionNote") (flattenNotes discussions))
    /\ diffNotes
       = List.map diffEntry
           (List.filter (unresolvedOfKind "DiffNote") (flattenNotes discussions))
    /\ length disscussionNotes
       = length (List.filter (unresolvedOfKind "DiscussionNote") (flattenNotes discussions))
    /\ length diffNotes
       = length (List.filter (unresolvedOfKind "DiffNote") (flattenNotes discussions))
    /\ (forall note kind, notUnresolved note = true -> unresolvedOfKind kind note = false)
    /\ (truthy (arg args "project_id") = true ->
        truthy (arg args "merge_request_iid") = true ->
        fst (tryCatch (TS.getMergeRequestComments api args) s)
        = fst (JS.callTool api env "get_merge_request_comments" (Some args) s)).
Proof.
  intros Hverbose Hapi Hd Hnotes Hauthor.
  assert (Hready : forall kind,
             kind = "DiscussionNote" \/ kind = "DiffNote" ->
             Forall wellFormedNote
               (List.filter (unresolvedOfKind kind) (flattenNotes discussions))).
  { intros kind Hkind. apply Forall_forall. intros note Hin. split.
    - revert note Hin. apply Forall_forall, Forall_filter_keeps, Hnotes.
    - revert note Hin. apply Forall_forall, retained_of_kind; assumption. }
  assert (Hjs : forall st : PState World,
             JS.filterComments (VArr discussions) st
             = (inr (VObj [("disscussionNotes",
                            VArr (List.map discussionEntry
                                    (List.filter (unresolvedOfKind "DiscussionNote")
                                       (flattenNotes discussions))));
                           ("diffNotes",
                            VArr (List.map diffEntry
                                    (List.filter (unresolvedOfKind "DiffNote")
                                       (flattenNotes discussions))))]), st)).
  { intros st. apply partition_total; try assumption.
    - eapply Forall_impl; [apply Hready; auto|].
      intros note [Hn Ha]. apply js_filterDiscussionNote_total; assumption.
    - eapply Forall_impl; [apply Hready; auto|].
      intros note [Hn Ha]. apply js_filterDiffNote_total; assumption. }
  assert (Hts : forall st : PState World,
             TS.filterComments (VArr discussions) st
             = (inr (VObj [("disscussionNotes",
                            VArr (List.map discussionEntry
                                    (List.filter (unresolvedOfKind "DiscussionNote")
                                       (flattenNotes discussions))));
                           ("diffNotes",
                            VArr (List.map diffEntry
                                    (List.filter (unresolvedOfKind "DiffNote")
                                       (flattenNotes discussions))))]), st)).
  { intros st. apply partition_total; try assumption.
    - eapply Forall_impl; [apply Hready; auto|].
      intros note [Hn Ha]. apply ts_filterDiscussionNote_total; assumption.
    - eapply Forall_impl; [apply Hready; auto|].
      intros note [Hn Ha]. apply ts_filterDiffNote_total; assumption. }
  eexists _, _. split; [|split; [reflexivity|split; [reflexivity|]]].
  - unfold JS.callTool, tryCatch, JS.runTool. simpl.
    unfold JS.getMergeRequestComments, JS.destructure.
    erewrite bind_run by reflexivity. cbv zeta.
    rewrite (bind_run _ _ _ _ _ (call_run _ _ _ _ Hapi)). rewrite Hverbose.
    rewrite (bind_run _ _ _ _ _ (Hjs _)). reflexivity.
  - rewrite !length_map. split; [reflexivity|]. split; [reflexivity|]. split.
    + intros note kind. unfold notUnresolved, unresolvedOfKind.
      destruct (strictEqFalse (readProp note "resolved")); [discriminate|reflexivity].
    + intros Hid Hiid.
      unfold JS.callTool, tryCatch, JS.runTool. simpl.
      unfold JS.getMergeRequestComments, JS.destructure, TS.getMergeRequestComments.
      erewrite bind_run by reflexivity. cbv zeta.
      rewrite Hid, Hiid. cbn [negb orb].
      rewrite !(bind_run _ _ _ _ _ (call_run _ _ _ _ Hapi)). rewrite Hverbose.
      rewrite (bind_run _ _ _ _ _ (Hjs _)), (bind_run _ _ _ _ _ (Hts _)). reflexivity.
Qed.
End Shaping.

Lemma comments_are_partitioned_witness :
  Forall (fun d => nullish d = false) mixedDiscussions
  /\ Forall (fun note => nullish note = false) (flattenNotes mixedDiscussions)
  /\ Forall (fun note => nullish (readProp note "author") = false)
       (List.filter isRetained (flattenNotes mixedDiscussions))
  /\ existsb (fun note => nullish (readProp note "author")) (flattenNotes mixedDiscussions)
     = true
  /\ length (flattenNotes mixedDiscussions) = 7
  /\ length (List.filter notUnresolved (flattenNotes mixedDiscussions)) = 4
  /\ exists disscussionNotes diffNotes,
       fst (JS.callTool (constApi (VArr mixedDiscussions)) noEnv "get_merge_request_comments"
              (Some {[ "project_id" := VNum 1; "merge_request_iid" := VNum 4 ]}) (start tt))
       = textResponse
           (stringify (VObj [("disscussionNotes", VArr disscussionNotes);
                             ("diffNotes", VArr diffNotes)]))
       /\ disscussionNotes
          = List.map discussionEntry
              (List.filter (unresolvedOfKind "DiscussionNote") (flattenNotes mixedDiscussions))
       /\ diffNotes
          = List.map diffEntry
              (List.filter (unresolvedOfKind "DiffNote") (flattenNotes mixedDiscussions))
       /\ length disscussionNotes = 1
       /\ length diffNotes = 2
       /\ (forall note kind, notUnresolved note = true -> unresolvedOfKind kind note = false)
       /\ (truthy (VNum 1) = true ->
           truthy (VNum 4) = true ->
           fst (tryCatch (TS.getMergeRequestComments (constApi (VArr mixedDiscussions))
                            {[ "project_id" := VNum 1; "merge_request_iid" := VNum 4 ]})
                  (start tt))
           = fst (JS.callTool (constApi (VArr mixedDiscussions)) noEnv
                    "get_merge_request_comments"
                    (Some {[ "project_id" := VNum 1; "merge_request_iid" := VNum 4 ]})
                    (start tt))).
Proof.
  assert (Hd : Forall (fun d => nullish d = false) mixedDiscussions)
    by (repeat constructor).
  assert (Hnotes : Forall (fun note => nullish note = false)
                     (flattenNotes mixedDiscussions))
    by (repeat constructor).
  assert (Hauthor : Forall (fun note => nullish (readProp note "author") = false)
                      (List.filter isRetained (flattenNotes mixedDiscussions)))
    by (repeat constructor).
  split; [exact Hd|]. split; [exact Hnotes|]. split; [exact Hauthor|].
  split; [reflexivity|]. split; [reflexivity|]. split; [reflexivity|].
  exact (comments_are_partitioned (constApi (VArr mixedDiscussions)) noEnv
           {[ "project_id" := VNum 1; "merge_request_iid" := VNum 4 ]} (start tt)
           mixedDiscussions tt eq_refl eq_refl Hd Hnotes Hauthor).
Defined.

(** A discussion set with one unresolved diff note (M = 1) that has no
    author: the JavaScript handler returns a failure result and no list. *)
Lemma js_comments_fail_on_orphan_note :
  length (List.filter (unresolvedOfKind "DiffNote") (flattenNotes orphanDiscussions)) = 1
  /\ isError (fst (JS.callTool (constApi (VArr orphanDiscussions)) noEnv
                     "get_merge_request_comments"
                     (Some {[ "project_id" := VNum 1; "merge_request_iid" := VNum 4 ]})
                     (start tt)))
     = Some true
  /\ snd (JS.callTool (constApi (VArr orphanDiscussions)) noEnv
            "get_merge_request_comments"
            (Some {[ "project_id" := VNum 1; "merge_request_iid" := VNum 4 ]}) (start tt))
     = {| world := tt; calls := [MergeRequestDiscussions_all (VNum 1) (VNum 4)] |}.
Proof. repeat split; vm_compute; reflexivity. Qed.

(** A project list whose second element is null: the non-verbose
    [get_projects] returns a failure result, not a list of two. *)
Lemma js_projects_fail_on_null_element :
  length [sampleProject 1 "alpha"; VNull] = 2
  /\ isError (fst (JS.callTool (constApi (VArr [sampleProject 1 "alpha"; VNull])) noEnv
                     "get_projects" (Some ∅) (start tt)))
     = Some true
  /\ snd (JS.callTool (constApi (VArr [sampleProject 1 "alpha"; VNull])) noEnv
            "get_projects" (Some ∅) (start tt))
     = {| world := tt; calls := [Projects_all (VObj [("membership", VBool true)])] |}.
Proof. repeat split; vm_compute; reflexivity. Qed.

Lemma filtered_lists_are_fieldwise_projections_witness :
  (exists out,
      length out = 2
      /\ (forall i p,
            [sampleProject 1 "alpha"; sampleProject 2 "beta"] !! i = Some p ->
            out !! i = Some (pick projectFields p))
      /\ fst (JS.callTool sampleApi noEnv "get_projects" (Some ∅) (start 0))
         = textResponse (stringify (VArr out))
      /\ fst (tryCatch (TS.getProjects sampleApi noEnv ∅) (start 0))
         = fst (JS.callTool sampleApi noEnv "get_projects" (Some ∅) (start 0)))
  /\ (exists out,
        length out = 1
        /\ (forall i mr,
              [sampleMergeRequest] !! i = Some mr ->
              out !! i = Some (pick mergeRequestFields mr))
        /\ fst (JS.callTool sampleApi noEnv "list_open_merge_requests"
                  (Some {[ "project_id" := VNum 1 ]}) (start 0))
           = textResponse (stringify (VArr out))
        /\ (truthy (VNum 1) = true ->
            fst (tryCatch (TS.listOpenMergeRequests sampleApi {[ "project_id" := VNum 1 ]})
                   (start 0))
            = textResponse (stringify (VArr out)))).
Proof.
  destruct (filtered_lists_are_fieldwise_projections sampleApi noEnv)
    as [Hprojects Hrequests].
  split.
  - refine (Hprojects ∅ (start 0) [sampleProject 1 "alpha"; sampleProject 2 "beta"] 1
              eq_refl _ eq_refl).
    repeat constructor.
  - refine (Hrequests {[ "project_id" := VNum 1 ]} (start 0) [sampleMergeRequest] 1
              eq_refl _ eq_refl).
    repeat constructor.
Defined.

Lemma empty_collections_give_sentences_witness :
  fst (JS.callTool emptyApi noEnv "get_projects" (Some ∅) (start tt))
  = textResponse (Some "No projects found.")
  /\ fst (JS.callTool emptyApi noEnv "get_merge_request_diff"
            (Some {[ "project_id" := VNum 1; "merge_request_iid" := VNum 4 ]}) (start tt))
     = textResponse (Some "No diff data available for this merge request.").
Proof.
  destruct (empty_collections_give_sentences emptyApi noEnv) as (Hprojects & Hdiff & _).
  split.
  - exact (proj1 (Hprojects ∅ (start tt) tt eq_refl)).
  - exact (proj1 (Hdiff {[ "project_id" := VNum 1; "merge_request_iid" := VNum 4 ]}
                    (start tt) tt eq_refl)).
Defined.

Lemma no_open_merge_requests_gives_empty_array_witness :
  fst (JS.callTool emptyApi noEnv "list_open_merge_requests"
         (Some {[ "project_id" := VNum 1 ]}) (start tt))
  = textResponse (Some "[]")
  /\ (truthy (VNum 1) = true ->
      fst (tryCatch (TS.listOpenMergeRequests emptyApi {[ "project_id" := VNum 1 ]})
             (start tt))
      = textResponse (Some "[]")).
Proof.
  exact (no_open_merge_requests_gives_empty_array emptyApi noEnv
           {[ "project_id" := VNum 1 ]} (start tt) tt eq_refl).
Defined.

(** * Further properties of the two servers *)

(** ** Provider calls: how many, and what a failure becomes *)

Section ProviderCalls.
Context {World : Type}.
Variable api : ApiCall -> World -> (Error + value) * World.
Variable env : Env.

(** X1: when the provider call a JavaScript handler makes (the call of
    its tool on the given arguments) fails, the dispatcher returns the
    error translator's result for the provider's error, and that one call
    is the only call made: nothing is retried and nothing else is asked of
    the provider. *)
Theorem provider_failure_is_reported_once
  (tool : JS.Tool) (args : Args) (s : PState World) :
  In tool JS.tools ->
  exists c,
    handlerCall env (JS.name tool) args = Some c
    /\ forall e w',
         api c (world s) = (inl e, w') ->
         JS.callTool api env (JS.name tool) (Some args) s
         = (formatErrorResponse e, {| world := w'; calls := calls s ++ [c] |}).
Proof.
  intros Htool. simpl in Htool.
  repeat (destruct Htool as [<-|Htool];
          [ eexists; split; [reflexivity|]; intros e w' Hapi;
            unfold JS.callTool, tryCatch, JS.runTool; simpl; unfold_js_goal;
            unfold JS.destructure; erewrite bind_run by reflexivity; cbv zeta;
            rewrite (bind_fail _ _ _ _ _ (call_run api _ _ _ _ Hapi)); reflexivity
          | ]).
  destruct Htool.
Qed.

(** X2: whatever the name and the arguments, one run of the JavaScript
    dispatcher makes at most one provider call and keeps the calls already
    logged; the same holds of every callback the TypeScript server
    registers. *)
Theorem at_most_one_provider_call :
  (forall (name : string) (params : option Args) (s : PState World),
      exists made,
        calls (snd (JS.callTool api env name params s)) = calls s ++ made
        /\ length made <= 1)
  /\ (forall (r : TS.Registration) (args : Args) (s : PState World),
        In r (TS.registeredTools api env) ->
        exists made,
          calls (snd (TS.callback r args s)) = calls s ++ made
          /\ length made <= 1).
Proof.
  split.
  - intros name params s. unfold JS.callTool. rewrite tryCatch_state.
    unfold JS.runTool, JS.handlerFor.
    repeat (match goal with
            | |- context [String.eqb name ?lit] => destruct (String.eqb name lit)
            end;
            [ destruct params as [args|];
              [ unfold_js_goal; unfold JS.destructure;
                erewrite bind_run by reflexivity; cbv zeta;
                rewrite one_call by (intros ?; purity); rewrite call_state;
                eexists [_]; split; [reflexivity|simpl; lia]
              | exists []; rewrite app_nil_r; split; [reflexivity|simpl; lia] ]
            | ]).
    exists []. rewrite app_nil_r. split; [reflexivity|simpl; lia].
  - intros r args s Hr. unfold TS.callback. rewrite tryCatch_state. simpl in Hr.
    repeat (destruct Hr as [<-|Hr];
            [ simpl; unfold_ts_goal; cbv zeta;
              try match goal with
                  | |- context [if ?b then throw _ else _] =>
                      destruct b;
                      [ exists []; rewrite app_nil_r; split; [reflexivity|simpl; lia] | ]
                  end;
              rewrite one_call by (intros ?; purity); rewrite call_state;
              eexists [_]; split; [reflexivity|simpl; lia]
            | ]).
    destruct Hr.
Qed.

(** X3: a request that carries no [arguments] object fails in the
    JavaScript server for every tool, [get_projects] included: the
    handler's parameter pattern cannot be destructured, the dispatcher
    returns a failure result saying so, and the provider is not called. *)
Theorem absent_arguments_fail_without_call (tool : JS.Tool) (s : PState World) :
  In tool JS.tools ->
  exists e,
    JS.callTool api env (JS.name tool) None s = (formatErrorResponse e, s).
Proof.
  intros Htool. simpl in Htool.
  repeat (destruct Htool as [<-|Htool]; [eexists; reflexivity|]).
  destruct Htool.
Qed.

(** X4: the [tools] list and the [switch] agree: a name is the name of a
    listed tool exactly when the switch has a handler for it, and no name
    is listed twice. *)
Theorem listed_tools_are_the_dispatched_ones :
  (forall name : string,
      In name (List.map JS.name JS.tools) <-> JS.handlerFor api env name <> None)
  /\ List.NoDup (List.map JS.name JS.tools).
Proof.
  split.
  - intros name. split.
    + intros Hname. simpl in Hname.
      repeat (destruct Hname as [<-|Hname]; [discriminate|]).
      destruct Hname.
    + intros Hsome.
      destruct (in_dec string_dec name (List.map JS.name JS.tools)) as [Hin|Hout];
        [exact Hin|].
      destruct (Hsome (handlerFor_unknown api env name Hout)).
  - simpl.
    repeat (constructor;
            [ simpl; intros Hin;
              repeat (destruct Hin as [Hin|Hin]; [discriminate Hin|]); exact Hin | ]).
    constructor.
Qed.
End ProviderCalls.

(** ** The TypeScript checks, and the two servers side by side *)

Section TwoServers.
Context {World : Type}.
Variable api : ApiCall -> World -> (Error + value) * World.
Variable env : Env.

(** Rewrites with the truthiness of each field of a list. *)
Ltac use_truthy H :=
  repeat match type of H with
         | Forall _ (_ :: _) =>
             let Hx := fresh "Hx" in
             apply Forall_cons_1 in H; destruct H as [Hx H]; rewrite ?Hx
         end.

(** X5: the checks of the TypeScript handlers decide exactly whether the
    provider is called: when every required field of the tool's schema is
    truthy the callback makes one provider call, and when some required
    field is falsy (absent, 0, empty, null, false) it makes none and
    returns a failure result. *)
Theorem typescript_calls_iff_required_truthy
  (r : TS.Registration) (args : Args) (s : PState World) :
  In r (TS.registeredTools api env) ->
  (Forall (fun field => truthy (arg args field) = true)
     (TS.requiredFields (TS.inputSchema r)) ->
   exists c,
     snd (TS.callback r args s)
     = {| world := snd (api c (world s)); calls := calls s ++ [c] |})
  /\ (List.Exists (fun field => truthy (arg args field) = false)
        (TS.requiredFields (TS.inputSchema r)) ->
      snd (TS.callback r args s) = s
      /\ isError (fst (TS.callback r args s)) = Some true).
Proof.
  intros Hr. split.
  - intros Hall. unfold TS.callback. rewrite tryCatch_state. simpl in Hr.
    repeat (destruct Hr as [<-|Hr];
            [ unfold TS.requiredFields in Hall; simpl in Hall |- *;
              unfold_ts_goal; cbv zeta; use_truthy Hall; cbn [negb orb];
              eexists; rewrite one_call; [apply call_state|]; intros ?; purity
            | ]).
    destruct Hr.
  - intros Hsome. apply List.Exists_exists in Hsome.
    destruct Hsome as (field & Hfield & Hfalsy).
    destruct (ts_falsy_required api env r field Hr Hfield) as (msg & _ & _ & Hthrow).
    unfold TS.callback, tryCatch. rewrite (Hthrow args s Hfalsy). split; reflexivity.
Qed.

(** X6: on arguments whose required fields are all truthy, the TypeScript
    callback of every tool other than [get_merge_request_comments] and
    [add_merge_request_diff_comment] returns exactly what the JavaScript
    dispatcher returns for the same name and arguments, and leaves the
    provider and the call log in the same state. *)
Theorem typescript_agrees_with_javascript
  (r : TS.Registration) (args : Args) (s : PState World) :
  In r (TS.registeredTools api env) ->
  ~ In (TS.name r) ["get_merge_request_comments"; "add_merge_request_diff_comment"] ->
  Forall (fun field => truthy (arg args field) = true)
    (TS.requiredFields (TS.inputSchema r)) ->
  TS.callback r args s = JS.callTool api env (TS.name r) (Some args) s.
Proof.
  intros Hr Hother Hall. simpl in Hr.
  repeat (destruct Hr as [<-|Hr];
          [ first
              [ exfalso; apply Hother; simpl; tauto
              | unfold TS.requiredFields in Hall; simpl in Hall |- *;
                unfold TS.callback, JS.callTool, JS.runTool; simpl;
                unfold_ts_goal; unfold_js_goal; unfold JS.destructure; cbv zeta;
                use_truthy Hall; cbn [negb orb]; reflexivity ]
          | ]).
  destruct Hr.
Qed.
End TwoServers.

(** ** What each handler asks and what it returns *)

Section Handlers.
Context {World : Type}.
Variable api : ApiCall -> World -> (Error + value) * World.
Variable env : Env.

(** Runs a JavaScript handler up to and including its provider call, whose
    outcome is [Hapi]. *)
Ltac run_js Hapi :=
  unfold JS.callTool, tryCatch, JS.runTool; simpl; unfold_js_goal;
  unfold JS.destructure; erewrite bind_run by reflexivity; cbv zeta;
  rewrite (bind_run _ _ _ _ _ (call_run api _ _ _ _ Hapi)).

(** X7: with [verbose] set, the five operations that have a filtered view
    return the provider's answer serialised as it is, with no field
    projected away and no note dropped; [get_projects] still replaces
    anything that is not a non-empty list by its sentence. *)
Theorem verbose_returns_the_raw_answer
  (args : Args) (s : PState World) (raw : value) (w' : World) :
  truthy (argOr args "verbose" (VBool false)) = true ->
  (api (Projects_all (VObj (("membership", VBool true) :: projectFilter env))) (world s)
   = (inr raw, w') ->
   fst (JS.callTool api env "get_projects" (Some args) s)
   = textResponse (if isNonEmptyArray raw then stringify raw
                   else Some "No projects found."))
  /\ (api (MergeRequests_all
             (VObj [("projectId", arg args "project_id"); ("state", VStr "opened")]))
        (world s)
      = (inr raw, w') ->
      fst (JS.callTool api env "list_open_merge_requests" (Some args) s)
      = textResponse (stringify raw))
  /\ (api (MergeRequests_show (arg args "project_id") (arg args "merge_request_iid"))
        (world s)
      = (inr raw, w') ->
      fst (JS.callTool api env "get_merge_request_details" (Some args) s)
      = textResponse (stringify raw))
  /\ (api (MergeRequestDiscussions_all (arg args "project_id")
             (arg args "merge_request_iid")) (world s)
      = (inr raw, w') ->
      fst (JS.callTool api env "get_merge_request_comments" (Some args) s)
      = textResponse (stringify raw))
  /\ (api (Issues_show (arg args "issue_iid") (VObj [("projectId", arg args "project_id")]))
        (world s)
      = (inr raw, w') ->
      fst (JS.callTool api env "get_issue_details" (Some args) s)
      = textResponse (stringify raw)).
Proof.
  intros Hverbose.
  repeat split; intros Hapi; run_js Hapi; rewrite Hverbose; reflexivity.
Qed.

Lemma filterMergeRequestDetails_total mr (s : PState World) :
  nullish mr = false ->
  filterMergeRequestDetails mr s = (inr (pick mergeRequestDetailsFields mr), s).
Proof. intros Hp. unfold filterMergeRequestDetails, bind, prop. rewrite Hp. reflexivity. Qed.

Lemma filterIssue_total issue (s : PState World) :
  nullish issue = false -> filterIssue issue s = (inr (pick issueFields issue), s).
Proof. intros Hp. unfold filterIssue, bind, prop. rewrite Hp. reflexivity. Qed.

Lemma js_details_run (args : Args) (s : PState World) (mr : value) (w' : World) :
  truthy (argOr args "verbose" (VBool false)) = false ->
  api (MergeRequests_show (arg args "project_id") (arg args "merge_request_iid")) (world s)
  = (inr mr, w') ->
  nullish mr = false ->
  JS.callTool api env "get_merge_request_details" (Some args) s
  = (textResponse (stringify (pick mergeRequestDetailsFields mr)),
     {| world := w';
        calls := calls s ++ [MergeRequests_show (arg args "project_id")
                               (arg args "merge_request_iid")] |}).
Proof.
  intros Hverbose Hapi Hmr. run_js Hapi. rewrite Hverbose.
  rewrite (bind_run _ _ _ _ _ (filterMergeRequestDetails_total mr _ Hmr)). reflexivity.
Qed.

Lemma js_issue_run (args : Args) (s : PState World) (issue : value) (w' : World) :
  truthy (argOr args "verbose" (VBool false)) = false ->
  api (Issues_show (arg args "issue_iid") (VObj [("projectId", arg args "project_id")]))
    (world s)
  = (inr issue, w') ->
  nullish issue = false ->
  JS.callTool api env "get_issue_details" (Some args) s
  = (textResponse (stringify (pick issueFields issue)),
     {| world := w';
        calls := calls s ++ [Issues_show (arg args "issue_iid")
                               (VObj [("projectId", arg args "project_id")])] |}).
Proof.
  intros Hverbose Hapi Hissue. run_js Hapi. rewrite Hverbose.
  rewrite (bind_run _ _ _ _ _ (filterIssue_total issue _ Hissue)). reflexivity.
Qed.

(** X8: without [verbose], [get_merge_request_details] asks the provider
    for the merge request of the given project and iid and serialises the
    object with exactly the nine fields title, description, state,
    web_url, target_branch, source_branch, merge_status,
    detailed_merge_status and diff_refs, each read off the answer
    ([diff_refs] as it comes); an answer of null makes the call a failure
    result after that one provider call. *)
Theorem details_are_the_nine_fields
  (args : Args) (s : PState World) (mr : value) (w' : World) :
  truthy (argOr args "verbose" (VBool false)) = false ->
  api (MergeRequests_show (arg args "project_id") (arg args "merge_request_iid")) (world s)
  = (inr mr, w') ->
  (nullish mr = false ->
   JS.callTool api env "get_merge_request_details" (Some args) s
   = (textResponse (stringify (pick mergeRequestDetailsFields mr)),
      {| world := w';
         calls := calls s ++ [MergeRequests_show (arg args "project_id")
                                (arg args "merge_request_iid")] |}))
  /\ (nullish mr = true ->
      exists e,
        JS.callTool api env "get_merge_request_details" (Some args) s
        = (formatErrorResponse e,
           {| world := w';
              calls := calls s ++ [MergeRequests_show (arg args "project_id")
                                     (arg args "merge_request_iid")] |})).
Proof.
  intros Hverbose Hapi. split.
  - apply js_details_run; assumption.
  - intros Hmr. run_js Hapi. rewrite Hverbose.
    destruct mr; try discriminate Hmr; eexists; reflexivity.
Qed.

(** X9: without [verbose], [get_issue_details] asks the provider for the
    issue with the issue iid first and the project id inside an options
    object, and serialises the object with exactly the fields title and
    description read off the answer; an answer of null makes the call a
    failure result after that one provider call. *)
Theorem issue_is_title_and_description
  (args : Args) (s : PState World) (issue : value) (w' : World) :
  truthy (argOr args "verbose" (VBool false)) = false ->
  api (Issues_show (arg args "issue_iid") (VObj [("projectId", arg args "project_id")]))
    (world s)
  = (inr issue, w') ->
  (nullish issue = false ->
   JS.callTool api env "get_issue_details" (Some args) s
   = (textResponse (stringify (pick issueFields issue)),
      {| world := w';
         calls := calls s ++ [Issues_show (arg args "issue_iid")
                                (VObj [("projectId", arg args "project_id")])] |}))
  /\ (nullish issue = true ->
      exists e,
        JS.callTool api env "get_issue_details" (Some args) s
        = (formatErrorResponse e,
           {| world := w';
              calls := calls s ++ [Issues_show (arg args "issue_iid")
                                     (VObj [("projectId", arg args "project_id")])] |})).
Proof.
  intros Hverbose Hapi. split.
  - apply js_issue_run; assumption.
  - intros Hissue. run_js Hapi. rewrite Hverbose.
    destruct issue; try discriminate Hissue; eexists; reflexivity.
Qed.

(** X10: [add_merge_request_comment] creates a discussion from the
    project id, the iid and the comment alone, with no position, and
    returns the created discussion serialised as the provider gave it. *)
Theorem general_comment_has_no_position (args : Args) (s : PState World) :
  calls (snd (JS.callTool api env "add_merge_request_comment" (Some args) s))
  = calls s
    ++ [MergeRequestDiscussions_create (arg args "project_id")
          (arg args "merge_request_iid") (arg args "comment") VUndef]
  /\ forall note w',
       api (MergeRequestDiscussions_create (arg args "project_id")
              (arg args "merge_request_iid") (arg args "comment") VUndef) (world s)
       = (inr note, w') ->
       fst (JS.callTool api env "add_merge_request_comment" (Some args) s)
       = textResponse (stringify note).
Proof.
  split.
  - unfold JS.callTool. rewrite tryCatch_state. unfold JS.runTool. simpl.
    unfold JS.addMergeRequestComment, JS.destructure.
    erewrite bind_run by reflexivity. cbv zeta.
    rewrite one_call by (intros ?; purity). rewrite call_state. reflexivity.
  - intros note w' Hapi. run_js Hapi. reflexivity.
Qed.

(** X11: [set_merge_request_title] edits the merge request with an object
    that holds the title and nothing else, [set_merge_request_description]
    with an object that holds the description and nothing else; each
    returns the provider's updated merge request serialised in full. *)
Theorem edits_send_one_field (args : Args) (s : PState World) :
  (calls (snd (JS.callTool api env "set_merge_request_title" (Some args) s))
   = calls s
     ++ [MergeRequests_edit (arg args "project_id") (arg args "merge_request_iid")
           (VObj [("title", arg args "title")])]
   /\ forall mr w',
        api (MergeRequests_edit (arg args "project_id") (arg args "merge_request_iid")
               (VObj [("title", arg args "title")])) (world s)
        = (inr mr, w') ->
        fst (JS.callTool api env "set_merge_request_title" (Some args) s)
        = textResponse (stringify mr))
  /\ (calls (snd (JS.callTool api env "set_merge_request_description" (Some args) s))
      = calls s
        ++ [MergeRequests_edit (arg args "project_id") (arg args "merge_request_iid")
              (VObj [("description", arg args "description")])]
      /\ forall mr w',
           api (MergeRequests_edit (arg args "project_id") (arg args "merge_request_iid")
                  (VObj [("description", arg args "description")])) (world s)
           = (inr mr, w') ->
           fst (JS.callTool api env "set_merge_request_description" (Some args) s)
           = textResponse (stringify mr)).
Proof.
  split; split.
  - unfold JS.callTool. rewrite tryCatch_state. unfold JS.runTool. simpl.
    unfold JS.setMergeRequestTitle, JS.destructure.
    erewrite bind_run by reflexivity. cbv zeta.
    rewrite one_call by (intros ?; purity). rewrite call_state. reflexivity.
  - intros mr w' Hapi. run_js Hapi. reflexivity.
  - unfold JS.callTool. rewrite tryCatch_state. unfold JS.runTool. simpl.
    unfold JS.setMergeRequestDescription, JS.destructure.
    erewrite bind_run by reflexivity. cbv zeta.
    rewrite one_call by (intros ?; purity). rewrite call_state. reflexivity.
  - intros mr w' Hapi. run_js Hapi. reflexivity.
Qed.

(** X12: the options [get_projects] passes to the provider are fixed by
    the environment and never by the caller's arguments: membership is
    always true; a minimum access level is among them exactly when its
    variable is set and not empty; the search term is sent, as it is,
    exactly when its variable is set and not empty. Both servers send the
    same options. *)
Theorem project_options_come_from_the_environment :
  exists options,
    lookupField "membership" options = VBool true
    /\ (In "minAccessLevel" (List.map fst options)
        <-> exists level, MR_MCP_MIN_ACCESS_LEVEL env = Some level /\ level <> "")
    /\ lookupField "search" options
       = match MR_MCP_PROJECT_SEARCH_TERM env with
         | Some term => if String.eqb term "" then VUndef else VStr term
         | None => VUndef
         end
    /\ forall (args : Args) (s : PState World),
         calls (snd (JS.callTool api env "get_projects" (Some args) s))
         = calls s ++ [Projects_all (VObj options)]
         /\ calls (snd (tryCatch (TS.getProjects api env args) s))
            = calls s ++ [Projects_all (VObj options)].
Proof.
  exists (("membership", VBool true) :: projectFilter env).
  split; [reflexivity|]. split; [|split].
  - assert (Hsearch : ~ In "minAccessLevel"
                          (List.map fst
                             match envSet (MR_MCP_PROJECT_SEARCH_TERM env) with
                             | Some term => [("search", VStr term)]
                             | None => []
                             end)).
    { destruct (envSet (MR_MCP_PROJECT_SEARCH_TERM env)); simpl;
        [intros [H|H]; [discriminate H|exact H]|intros H; exact H]. }
    unfold projectFilter. simpl. rewrite List.map_app, List.in_app_iff.
    unfold envSet at 1.
    destruct (MR_MCP_MIN_ACCESS_LEVEL env) as [level|];
      [destruct (String.eqb_spec level "") as [->|Hlevel]|]; simpl; split.
    + intros [H|[H|H]]; [discriminate H|destruct H|destruct (Hsearch H)].
    + intros (level & [= <-] & Hne). destruct (Hne eq_refl).
    + intros _. exists level. split; [reflexivity|exact Hlevel].
    + intros _. right. left. left. reflexivity.
    + intros [H|[H|H]]; [discriminate H|destruct H|destruct (Hsearch H)].
    + intros (level & [=] & _).
  - unfold projectFilter, envSet.
    destruct (MR_MCP_MIN_ACCESS_LEVEL env) as [level|];
      [destruct (String.eqb level "")|];
      destruct (MR_MCP_PROJECT_SEARCH_TERM env) as [term|];
      try destruct (String.eqb term ""); reflexivity.
  - intros args s. split.
    + unfold JS.callTool. rewrite tryCatch_state. unfold JS.runTool. simpl.
      unfold JS.getProjects, JS.destructure.
      erewrite bind_run by reflexivity. cbv zeta.
      rewrite one_call by (intros ?; purity). rewrite call_state. reflexivity.
    + rewrite tryCatch_state. unfold TS.getProjects. cbv zeta.
      rewrite one_call by (intros ?; purity). rewrite call_state. reflexivity.
Qed.
End Handlers.

(** ** Notes without an author, answers that are not lists, absent fields *)

Section EdgeCases.
Context {World : Type}.
Variable api : ApiCall -> World -> (Error + value) * World.
Variable env : Env.

Ltac run_js Hapi :=
  unfold JS.callTool, tryCatch, JS.runTool; simpl; unfold_js_goal;
  unfold JS.destructure; erewrite bind_run by reflexivity; cbv zeta;
  rewrite (bind_run _ _ _ _ _ (call_run api _ _ _ _ Hapi)).

(** [mapM] over callbacks that make no call: it returns the mapped list
    when no element is bad and throws when one is. *)
Lemma mapM_decided {A B} (f : A -> M World B) (g : A -> B) (bad : A -> bool)
  (l : list A) (s : PState World) :
  Forall (fun x => if bad x then exists e, f x s = (inl e, s)
                   else f x s = (inr (g x), s)) l ->
  if existsb bad l then exists e, mapM f l s = (inl e, s)
  else mapM f l s = (inr (List.map g l), s).
Proof.
  induction 1 as [|x rest Hx _ IH]; simpl; [reflexivity|].
  destruct (bad x); simpl.
  - destruct Hx as [e He]. exists e. apply bind_fail, He.
  - rewrite (bind_run _ _ _ _ _ Hx).
    destruct (existsb bad rest).
    + destruct IH as [e He]. exists e. apply bind_fail, He.
    + rewrite (bind_run _ _ _ _ _ IH). reflexivity.
Qed.

Lemma js_entry_decided (entry : value -> M World value) (g : value -> value) note s :
  (entry = JS.filterDiscussionNote /\ g = discussionEntry)
  \/ (entry = JS.filterDiffNote /\ g = diffEntry) ->
  nullish note = false ->
  if nullish (readProp note "author") then exists e, entry note s = (inl e, s)
  else entry note s = (inr (g note), s).
Proof.
  intros Hentry Hn.
  destruct (nullish (readProp note "author")) eqn:Ha.
  - destruct Hentry as [[-> _]|[-> _]];
      unfold JS.filterDiscussionNote, JS.filterDiffNote, bind, prop;
      rewrite Hn; simpl; rewrite Ha; eexists; reflexivity.
  - destruct Hentry as [[-> ->]|[-> ->]].
    + apply js_filterDiscussionNote_total; assumption.
    + apply js_filterDiffNote_total; assumption.
Qed.

Lemma ts_filterDiscussionNote_tolerant note (s : PState World) :
  nullish note = false ->
  TS.filterDiscussionNote note s = (inr (tolerantDiscussionEntry note), s).
Proof. intros Hn. unfold TS.filterDiscussionNote, bind, prop. rewrite Hn. reflexivity. Qed.

Lemma ts_filterDiffNote_tolerant note (s : PState World) :
  nullish note = false ->
  TS.filterDiffNote note s = (inr (tolerantDiffEntry note), s).
Proof. intros Hn. unfold TS.filterDiffNote, bind, prop. rewrite Hn. reflexivity. Qed.

(** The flattened notes split by kind, as both servers compute them. *)
Lemma kinds_total (discussions : list value) (s : PState World) (kind : string) :
  Forall (fun note => nullish note = false) (flattenNotes discussions) ->
  arrayFilter (hasType kind)
    (List.filter (fun n => strictEqFalse (readProp n "resolved")) (flattenNotes discussions))
    s
  = (inr (List.filter (unresolvedOfKind kind) (flattenNotes discussions)), s).
Proof.
  intros Hnotes. unfold arrayFilter.
  rewrite (filterM_total _ (fun n => strictEqStr (readProp n "type") kind)).
  - rewrite filter_twice. reflexivity.
  - eapply Forall_impl; [apply Forall_filter_keeps, Hnotes|].
    intros n Hn. apply hasType_total, Hn.
Qed.

Lemma unresolved_total (discussions : list value) (s : PState World) :
  Forall (fun note => nullish note = false) (flattenNotes discussions) ->
  arrayFilter isUnresolved (flattenNotes discussions) s
  = (inr (List.filter (fun n => strictEqFalse (readProp n "resolved"))
            (flattenNotes discussions)), s).
Proof.
  intros Hnotes. unfold arrayFilter. apply filterM_total.
  eapply Forall_impl; [exact Hnotes|]. intros n Hn. apply isUnresolved_total, Hn.
Qed.

Lemma ts_filterComments_tolerant (discussions : list value) (s : PState World) :
  Forall (fun d => nullish d = false) discussions ->
  Forall (fun note => nullish note = false) (flattenNotes discussions) ->
  TS.filterComments (VArr discussions) s
  = (inr (VObj [("disscussionNotes",
                 VArr (List.map tolerantDiscussionEntry
                         (List.filter (unresolvedOfKind "DiscussionNote")
                            (flattenNotes discussions))));
                ("diffNotes",
                 VArr (List.map tolerantDiffEntry
                         (List.filter (unresolvedOfKind "DiffNote")
                            (flattenNotes discussions))))]), s).
Proof.
  intros Hd Hnotes. unfold TS.filterComments.
  rewrite (bind_run _ _ _ _ _ (flatten_total discussions _ Hd)).
  rewrite (bind_run _ _ _ _ _ (unresolved_total discussions _ Hnotes)).
  rewrite (bind_run _ _ _ _ _ (kinds_total discussions _ "DiscussionNote" Hnotes)).
  erewrite bind_run.
  2:{ apply (mapM_total _ tolerantDiscussionEntry).
      eapply Forall_impl; [apply Forall_filter_keeps, Hnotes|].
      intros n Hn. apply ts_filterDiscussionNote_tolerant, Hn. }
  rewrite (bind_run _ _ _ _ _ (kinds_total discussions _ "DiffNote" Hnotes)).
  erewrite bind_run.
  2:{ apply (mapM_total _ tolerantDiffEntry).
      eapply Forall_impl; [apply Forall_filter_keeps, Hnotes|].
      intros n Hn. apply ts_filterDiffNote_tolerant, Hn. }
  reflexivity.
Qed.

(** X13: the TypeScript [get_merge_request_comments] reads the author of
    a note with [?.], so a note without an author does not stop it: for
    discussions and notes that are not null, it returns both lists, one
    entry per unresolved note of the kind, with the author name undefined
    where the author is missing. *)
Theorem typescript_keeps_notes_without_author
  (args : Args) (s : PState World) (discussions : list value) (w' : World) :
  truthy (argOr args "verbose" (VBool false)) = false ->
  truthy (arg args "project_id") = true ->
  truthy (arg args "merge_request_iid") = true ->
  api (MergeRequestDiscussions_all (arg args "project_id") (arg args "merge_request_iid"))
    (world s)
  = (inr (VArr discussions), w') ->
  Forall (fun d => nullish d = false) discussions ->
  Forall (fun note => nullish note = false) (flattenNotes discussions) ->
  fst (tryCatch (TS.getMergeRequestComments api args) s)
  = textResponse
      (stringify
         (VObj [("disscussionNotes",
                 VArr (List.map tolerantDiscussionEntry
                         (List.filter (unresolvedOfKind "DiscussionNote")
                            (flattenNotes discussions))));
                ("diffNotes",
                 VArr (List.map tolerantDiffEntry
                         (List.filter (unresolvedOfKind "DiffNote")
                            (flattenNotes discussions))))])).
Proof.
  intros Hverbose Hid Hiid Hapi Hd Hnotes.
  unfold tryCatch, TS.getMergeRequestComments. cbv zeta.
  rewrite Hid, Hiid. cbn [negb orb].
  rewrite (bind_run _ _ _ _ _ (call_run api _ _ _ _ Hapi)). rewrite Hverbose.
  rewrite (bind_run _ _ _ _ _ (ts_filterComments_tolerant discussions _ Hd Hnotes)).
  reflexivity.
Qed.

Lemma existsb_filter_bad (bad keep : value -> bool) (l : list value) :
  existsb bad (List.filter keep l) = existsb (fun n => keep n && bad n) l.
Proof.
  induction l as [|x l IH]; simpl; [reflexivity|].
  destruct (keep x); simpl; rewrite IH; reflexivity.
Qed.

Lemma existsb_retained (bad : value -> bool) (l : list value) :
  existsb (fun n => isRetained n && bad n) l = true ->
  existsb (fun n => unresolvedOfKind "DiscussionNote" n && bad n) l = true
  \/ existsb (fun n => unresolvedOfKind "DiffNote" n && bad n) l = true.
Proof.
  induction l as [|x l IH]; simpl; [discriminate|].
  unfold isRetained at 1.
  destruct (unresolvedOfKind "DiscussionNote" x), (unresolvedOfKind "DiffNote" x),
    (bad x); simpl; auto;
    intros H; destruct (IH H) as [H'|H']; rewrite H'; auto using orb_true_r.
Qed.

Lemma js_filterComments_fails (discussions : list value) (st : PState World) :
  Forall (fun d => nullish d = false) discussions ->
  Forall (fun note => nullish note = false) (flattenNotes discussions) ->
  existsb (fun note => isRetained note && nullish (readProp note "author"))
    (flattenNotes discussions) = true ->
  exists e, JS.filterComments (VArr discussions) st = (inl e, st).
Proof.
  intros Hd Hnotes Hbad. unfold JS.filterComments.
  rewrite (bind_run _ _ _ _ _ (flatten_total discussions _ Hd)).
  rewrite (bind_run _ _ _ _ _ (unresolved_total discussions _ Hnotes)).
  rewrite (bind_run _ _ _ _ _ (kinds_total discussions _ "DiscussionNote" Hnotes)).
  pose proof (mapM_decided JS.filterDiscussionNote discussionEntry
                (fun n => nullish (readProp n "author"))
                (List.filter (unresolvedOfKind "DiscussionNote") (flattenNotes discussions))
                st) as Hfirst.
  pose proof (mapM_decided JS.filterDiffNote diffEntry
                (fun n => nullish (readProp n "author"))
                (List.filter (unresolvedOfKind "DiffNote") (flattenNotes discussions))
                st) as Hsecond.
  rewrite existsb_filter_bad in Hfirst, Hsecond.
  assert (Hd1 : Forall (fun x => if nullish (readProp x "author")
                                 then exists e, JS.filterDiscussionNote x st = (inl e, st)
                                 else JS.filterDiscussionNote x st
                                      = (inr (discussionEntry x), st))
                  (List.filter (unresolvedOfKind "DiscussionNote")
                     (flattenNotes discussions))).
  { eapply Forall_impl; [apply Forall_filter_keeps, Hnotes|].
    intros n Hn. apply js_entry_decided; [left; split; reflexivity|exact Hn]. }
  assert (Hd2 : Forall (fun x => if nullish (readProp x "author")
                                 then exists e, JS.filterDiffNote x st = (inl e, st)
                                 else JS.filterDiffNote x st = (inr (diffEntry x), st))
                  (List.filter (unresolvedOfKind "DiffNote") (flattenNotes discussions))).
  { eapply Forall_impl; [apply Forall_filter_keeps, Hnotes|].
    intros n Hn. apply js_entry_decided; [right; split; reflexivity|exact Hn]. }
  specialize (Hfirst Hd1). specialize (Hsecond Hd2).
  destruct (existsb (fun n => unresolvedOfKind "DiscussionNote" n
                              && nullish (readProp n "author"))
              (flattenNotes discussions)) eqn:Hfirstbad.
  - destruct Hfirst as [e He]. exists e. rewrite (bind_fail _ _ _ _ _ He). reflexivity.
  - rewrite (bind_run _ _ _ _ _ Hfirst).
    rewrite (bind_run _ _ _ _ _ (kinds_total discussions _ "DiffNote" Hnotes)).
    destruct (existsb_retained _ _ Hbad) as [H|H]; [congruence|].
    rewrite H in Hsecond. destruct Hsecond as [e He]. exists e.
    rewrite (bind_fail _ _ _ _ _ He). reflexivity.
Qed.

(** X14: the JavaScript [get_merge_request_comments] reads
    [note.author.name], so one unresolved discussion or diff note without
    an author spoils the whole answer: the result is a failure and none of
    the other notes is returned; the provider was called once. *)
Theorem javascript_fails_on_note_without_author
  (args : Args) (s : PState World) (discussions : list value) (w' : World) :
  truthy (argOr args "verbose" (VBool false)) = false ->
  api (MergeRequestDiscussions_all (arg args "project_id") (arg args "merge_request_iid"))
    (world s)
  = (inr (VArr discussions), w') ->
  Forall (fun d => nullish d = false) discussions ->
  Forall (fun note => nullish note = false) (flattenNotes discussions) ->
  existsb (fun note => isRetained note && nullish (readProp note "author"))
    (flattenNotes discussions) = true ->
  exists e,
    JS.callTool api env "get_merge_request_comments" (Some args) s
    = (formatErrorResponse e,
       {| world := w';
          calls := calls s ++ [MergeRequestDiscussions_all (arg args "project_id")
                                 (arg args "merge_request_iid")] |}).
Proof.
  intros Hverbose Hapi Hd Hnotes Hbad.
  run_js Hapi. rewrite Hverbose.
  destruct (js_filterComments_fails discussions
              {| world := w';
                 calls := calls s ++ [MergeRequestDiscussions_all (arg args "project_id")
                                        (arg args "merge_request_iid")] |}
              Hd Hnotes Hbad) as [e He].
  exists e. rewrite (bind_fail _ _ _ _ _ He). reflexivity.
Qed.

(** X15: a provider answer that is not a list (an object, a string, a
    number). [get_merge_request_diff] always answers it with its sentence.
    [get_projects] answers it with its sentence when [verbose] is set and
    with a failure result when it is not; [list_open_merge_requests]
    without [verbose] answers it with a failure result. *)
Theorem answers_that_are_not_lists
  (args : Args) (s : PState World) (raw : value) (w' : World) :
  nullish raw = false ->
  (forall items, raw <> VArr items) ->
  (api (MergeRequests_allDiffs (arg args "project_id") (arg args "merge_request_iid"))
     (world s)
   = (inr raw, w') ->
   fst (JS.callTool api env "get_merge_request_diff" (Some args) s)
   = textResponse (Some "No diff data available for this merge request."))
  /\ (api (Projects_all (VObj (("membership", VBool true) :: projectFilter env))) (world s)
      = (inr raw, w') ->
      if truthy (argOr args "verbose" (VBool false))
      then fst (JS.callTool api env "get_projects" (Some args) s)
           = textResponse (Some "No projects found.")
      else isError (fst (JS.callTool api env "get_projects" (Some args) s)) = Some true)
  /\ (api (MergeRequests_all
             (VObj [("projectId", arg args "project_id"); ("state", VStr "opened")]))
        (world s)
      = (inr raw, w') ->
      truthy (argOr args "verbose" (VBool false)) = false ->
      isError (fst (JS.callTool api env "list_open_merge_requests" (Some args) s))
      = Some true).
Proof.
  intros Hraw Hlist. split; [|split].
  - intros Hapi. run_js Hapi.
    destruct raw; try reflexivity. destruct (Hlist items eq_refl).
  - intros Hapi. run_js Hapi.
    destruct (truthy (argOr args "verbose" (VBool false)));
      destruct raw; try reflexivity; try discriminate Hraw;
      destruct (Hlist items eq_refl).
  - intros Hapi Hverbose. run_js Hapi. rewrite Hverbose.
    destruct raw; try reflexivity; try discriminate Hraw.
    destruct (Hlist items eq_refl).
Qed.

Lemma serialize_fields_defined indent (fields : list (string * value)) :
  serialize indent (VObj (List.filter (fun kv => isDefined (snd kv)) fields))
  = serialize indent (VObj fields).
Proof.
  simpl.
  assert (Hparts :
            List.flat_map
              (fun kv =>
                 match serialize (indent +:+ "  ") (snd kv) with
                 | None => []
                 | Some str => [quoteJSON (fst kv) +:+ ": " +:+ str]
                 end) (List.filter (fun kv => isDefined (snd kv)) fields)
            = List.flat_map
                (fun kv =>
                   match serialize (indent +:+ "  ") (snd kv) with
                   | None => []
                   | Some str => [quoteJSON (fst kv) +:+ ": " +:+ str]
                   end) fields).
  { induction fields as [|[k v] rest IH]; [reflexivity|].
    simpl. destruct v; simpl; rewrite IH; reflexivity. }
  rewrite Hparts. reflexivity.
Qed.

Lemma pick_defined (keys : list string) (raw : value) :
  match pick (List.filter (fun k => isDefined (readProp raw k)) keys) raw with
  | VObj fields =>
      fields = List.filter (fun kv => isDefined (snd kv))
                 (List.map (fun k => (k, readProp raw k)) keys)
  | _ => False
  end.
Proof.
  unfold pick. induction keys as [|k keys IH]; simpl; [reflexivity|].
  destruct (isDefined (readProp raw k)); simpl; rewrite <- IH; reflexivity.
Qed.

Lemma stringify_pick_defined (keys : list string) (raw : value) :
  stringify (pick keys raw)
  = stringify (pick (List.filter (fun k => isDefined (readProp raw k)) keys) raw).
Proof.
  unfold stringify. pose proof (pick_defined keys raw) as Hpick.
  unfold pick in *. rewrite Hpick. symmetry. apply serialize_fields_defined.
Qed.

(** X16: a projected field that the provider's object lacks is left out
    of the text, not printed as null: the filtered text of
    [get_merge_request_details] and of [get_issue_details] is the
    serialisation of the object with just those fields of the projection
    that the answer defines (a field the answer holds as null stays, as
    null). *)
Theorem absent_fields_are_left_out
  (args : Args) (s : PState World) (raw : value) (w' : World) :
  truthy (argOr args "verbose" (VBool false)) = false ->
  nullish raw = false ->
  (api (MergeRequests_show (arg args "project_id") (arg args "merge_request_iid"))
     (world s)
   = (inr raw, w') ->
   fst (JS.callTool api env "get_merge_request_details" (Some args) s)
   = textResponse
       (stringify
          (pick (List.filter (fun k => isDefined (readProp raw k)) mergeRequestDetailsFields)
             raw)))
  /\ (api (Issues_show (arg args "issue_iid") (VObj [("projectId", arg args "project_id")]))
        (world s)
      = (inr raw, w') ->
      fst (JS.callTool api env "get_issue_details" (Some args) s)
      = textResponse
          (stringify
             (pick (List.filter (fun k => isDefined (readProp raw k)) issueFields) raw))).
Proof.
  intros Hverbose Hraw. split; intros Hapi.
  - rewrite (js_details_run api env args s raw w' Hverbose Hapi Hraw). simpl fst.
    rewrite stringify_pick_defined. reflexivity.
  - rewrite (js_issue_run api env args s raw w' Hverbose Hapi Hraw). simpl fst.
    rewrite stringify_pick_defined. reflexivity.
Qed.
End EdgeCases.

(** ** Operations without a filtered view *)

Section Unfiltered.
Context {World : Type}.
Variable api : ApiCall -> World -> (Error + value) * World.
Variable env : Env.

(** X17: the five operations that have no filtered view
    ([get_merge_request_diff], the two comment operations and the two
    edits) do not look at [verbose]: adding it to the arguments, with any
    value, changes neither the call made nor the result; and a diff list
    that is not empty comes back serialised in full. *)
Theorem unfiltered_operations_ignore_verbose :
  (forall (name : string) (v : value) (args : Args) (s : PState World),
      In name ["get_merge_request_diff"; "add_merge_request_comment";
               "add_merge_request_diff_comment"; "set_merge_request_description";
               "set_merge_request_title"] ->
      JS.callTool api env name (Some (<["verbose" := v]> args)) s
      = JS.callTool api env name (Some args) s)
  /\ (forall (args : Args) (s : PState World) (d : value) (rest : list value) (w' : World),
        api (MergeRequests_allDiffs (arg args "project_id") (arg args "merge_request_iid"))
          (world s)
        = (inr (VArr (d :: rest)), w') ->
        fst (JS.callTool api env "get_merge_request_diff" (Some args) s)
        = textResponse (stringify (VArr (d :: rest)))).
Proof.
  split.
  - intros name v args s Hname. simpl in Hname.
    repeat (destruct Hname as [<-|Hname];
            [ unfold JS.callTool, JS.runTool; simpl; unfold_js_goal;
              unfold JS.destructure, tryCatch;
              rewrite (bind_run (ret (<["verbose" := v]> args)) _ _ _ _ eq_refl),
                (bind_run (ret args) _ _ _ _ eq_refl);
              cbv zeta; unfold arg; rewrite !lookup_insert_ne by discriminate;
              reflexivity
            | ]).
    destruct Hname.
  - intros args s d rest w' Hapi.
    unfold JS.callTool, tryCatch, JS.runTool. simpl.
    unfold JS.getMergeRequestDiff, JS.destructure.
    erewrite bind_run by reflexivity. cbv zeta.
    rewrite (bind_run _ _ _ _ _ (call_run api _ _ _ _ Hapi)). reflexivity.
Qed.
End Unfiltered.

(** ** The further properties on the sample providers *)

Lemma provider_failure_is_reported_once_witness :
  sampleApi (Issues_show VUndef (VObj [("projectId", VUndef)])) 0 = (inl notFound, 1)
  /\ JS.callTool sampleApi noEnv "get_issue_details" (Some ∅) (start 0)
     = (formatErrorResponse notFound,
        {| world := 1; calls := [Issues_show VUndef (VObj [("projectId", VUndef)])] |}).
Proof.
  split; [reflexivity|].
  destruct (provider_failure_is_reported_once sampleApi noEnv
              {| JS.name := "get_issue_details";
                 JS.properties := [("project_id", "number"); ("issue_iid", "number");
                                   ("verbose", "boolean")];
                 JS.required := ["project_id"; "issue_iid"] |} ∅ (start 0))
    as (c & Hc & Hfail).
  - simpl. tauto.
  - vm_compute in Hc. injection Hc as <-. exact (Hfail notFound 1 eq_refl).
Defined.

Lemma absent_arguments_fail_without_call_witness :
  exists e,
    JS.callTool sampleApi noEnv "get_projects" None (start 0)
    = (formatErrorResponse e, start 0).
Proof.
  refine (absent_arguments_fail_without_call sampleApi noEnv
            {| JS.name := "get_projects";
               JS.properties := [("verbose", "boolean")];
               JS.required := [] |} (start 0) _).
  simpl. tauto.
Defined.

Lemma typescript_calls_iff_required_truthy_witness :
  (exists c,
      snd (tryCatch (TS.getMergeRequestDetails sampleApi
                       {[ "project_id" := VNum 1; "merge_request_iid" := VNum 4 ]})
             (start 0))
      = {| world := snd (sampleApi c 0); calls := [c] |})
  /\ snd (tryCatch (TS.getMergeRequestDetails sampleApi
                       {[ "project_id" := VNum 1; "merge_request_iid" := VNull ]})
             (start 0))
     = start 0.
Proof.
  split.
  - refine (proj1 (typescript_calls_iff_required_truthy sampleApi noEnv
                     {| TS.name := "get_merge_request_details";
                        TS.inputSchema :=
                          [("project_id", TS.ZNumber); ("merge_request_iid", TS.ZNumber);
                           ("verbose", TS.ZOptional TS.ZBoolean)];
                        TS.handler := TS.getMergeRequestDetails sampleApi |}
                     {[ "project_id" := VNum 1; "merge_request_iid" := VNum 4 ]}
                     (start 0) _) _).
    + simpl. tauto.
    + repeat constructor.
  - refine (proj1 (proj2 (typescript_calls_iff_required_truthy sampleApi noEnv
                     {| TS.name := "get_merge_request_details";
                        TS.inputSchema :=
                          [("project_id", TS.ZNumber); ("merge_request_iid", TS.ZNumber);
                           ("verbose", TS.ZOptional TS.ZBoolean)];
                        TS.handler := TS.getMergeRequestDetails sampleApi |}
                     {[ "project_id" := VNum 1; "merge_request_iid" := VNull ]}
                     (start 0) _) _)).
    + simpl. tauto.
    + apply List.Exists_cons_tl, List.Exists_cons_hd. reflexivity.
Defined.

Lemma typescript_agrees_with_javascript_witness :
  tryCatch (TS.getIssueDetails sampleApi {[ "project_id" := VNum 1; "issue_iid" := VNum 2 ]})
    (start 0)
  = JS.callTool sampleApi noEnv "get_issue_details"
      (Some {[ "project_id" := VNum 1; "issue_iid" := VNum 2 ]}) (start 0).
Proof.
  refine (typescript_agrees_with_javascript sampleApi noEnv
            {| TS.name := "get_issue_details";
               TS.inputSchema :=
                 [("project_id", TS.ZNumber); ("issue_iid", TS.ZNumber);
                  ("verbose", TS.ZOptional TS.ZBoolean)];
               TS.handler := TS.getIssueDetails sampleApi |}
            {[ "project_id" := VNum 1; "issue_iid" := VNum 2 ]} (start 0) _ _ _).
  - simpl. tauto.
  - simpl. intros [H|[H|H]]; [discriminate H|discriminate H|exact H].
  - repeat constructor.
Defined.

Lemma verbose_returns_the_raw_answer_witness :
  fst (JS.callTool sampleApi noEnv "get_merge_request_details"
         (Some {[ "project_id" := VNum 1; "merge_request_iid" := VNum 4;
                  "verbose" := VBool true ]}) (start 0))
  = textResponse (stringify sampleMergeRequest)
  /\ fst (JS.callTool sampleApi noEnv "get_merge_request_comments"
            (Some {[ "project_id" := VNum 1; "merge_request_iid" := VNum 4;
                     "verbose" := VBool true ]}) (start 0))
     = textResponse (stringify (VArr sampleDiscussions)).
Proof.
  split.
  - exact (proj1 (proj2 (proj2
             (verbose_returns_the_raw_answer sampleApi noEnv
                {[ "project_id" := VNum 1; "merge_request_iid" := VNum 4;
                   "verbose" := VBool true ]} (start 0) sampleMergeRequest 1 eq_refl)))
             eq_refl).
  - exact (proj1 (proj2 (proj2 (proj2
             (verbose_returns_the_raw_answer sampleApi noEnv
                {[ "project_id" := VNum 1; "merge_request_iid" := VNum 4;
                   "verbose" := VBool true ]} (start 0) (VArr sampleDiscussions) 1
                eq_refl))))
             eq_refl).
Defined.

Lemma details_are_the_nine_fields_witness :
  JS.callTool sampleApi noEnv "get_merge_request_details"
    (Some {[ "project_id" := VNum 1; "merge_request_iid" := VNum 4 ]}) (start 0)
  = (textResponse (stringify (pick mergeRequestDetailsFields sampleMergeRequest)),
     {| world := 1; calls := [MergeRequests_show (VNum 1) (VNum 4)] |})
  /\ exists e,
       JS.callTool (constApi VNull) noEnv "get_merge_request_details"
         (Some {[ "project_id" := VNum 1; "merge_request_iid" := VNum 4 ]}) (start tt)
       = (formatErrorResponse e,
          {| world := tt; calls := [MergeRequests_show (VNum 1) (VNum 4)] |}).
Proof.
  split.
  - exact (proj1 (details_are_the_nine_fields sampleApi noEnv
                    {[ "project_id" := VNum 1; "merge_request_iid" := VNum 4 ]}
                    (start 0) sampleMergeRequest 1 eq_refl eq_refl) eq_refl).
  - exact (proj2 (details_are_the_nine_fields (constApi VNull) noEnv
                    {[ "project_id" := VNum 1; "merge_request_iid" := VNum 4 ]}
                    (start tt) VNull tt eq_refl eq_refl) eq_refl).
Defined.

Lemma issue_is_title_and_description_witness :
  JS.callTool sampleApi noEnv "get_issue_details"
    (Some {[ "project_id" := VNum 1; "issue_iid" := VNum 2 ]}) (start 0)
  = (textResponse (stringify (VObj [("title", VStr "Crash"); ("description", VNull)])),
     {| world := 1; calls := [Issues_show (VNum 2) (VObj [("projectId", VNum 1)])] |}).
Proof.
  exact (proj1 (issue_is_title_and_description sampleApi noEnv
                  {[ "project_id" := VNum 1; "issue_iid" := VNum 2 ]} (start 0)
                  (VObj [("iid", VNum 2); ("title", VStr "Crash"); ("description", VNull)])
                  1 eq_refl eq_refl) eq_refl).
Defined.

Lemma typescript_keeps_notes_without_author_witness :
  fst (tryCatch (TS.getMergeRequestComments (constApi (VArr orphanDiscussions))
                   {[ "project_id" := VNum 1; "merge_request_iid" := VNum 4 ]}) (start tt))
  = textResponse
      (stringify
         (VObj [("disscussionNotes", VArr []);
                ("diffNotes",
                 VArr [VObj [("id", VNum 7); ("noteable_id", VNum 9001);
                             ("body", VStr "ghost"); ("author_name", VUndef);
                             ("position", VUndef)]])])).
Proof.
  refine (typescript_keeps_notes_without_author (constApi (VArr orphanDiscussions))
            {[ "project_id" := VNum 1; "merge_request_iid" := VNum 4 ]} (start tt)
            orphanDiscussions tt eq_refl eq_refl eq_refl eq_refl _ _);
    repeat constructor.
Defined.

Lemma javascript_fails_on_note_without_author_witness :
  exists e,
    JS.callTool (constApi (VArr orphanDiscussions)) noEnv "get_merge_request_comments"
      (Some {[ "project_id" := VNum 1; "merge_request_iid" := VNum 4 ]}) (start tt)
    = (formatErrorResponse e,
       {| world := tt; calls := [MergeRequestDiscussions_all (VNum 1) (VNum 4)] |}).
Proof.
  refine (javascript_fails_on_note_without_author (constApi (VArr orphanDiscussions)) noEnv
            {[ "project_id" := VNum 1; "merge_request_iid" := VNum 4 ]} (start tt)
            orphanDiscussions tt eq_refl eq_refl _ _ eq_refl);
    repeat constructor.
Defined.

Lemma answers_that_are_not_lists_witness :
  fst (JS.callTool (constApi (VObj [("message", VStr "401 Unauthorized")])) noEnv
         "get_merge_request_diff"
         (Some {[ "project_id" := VNum 1; "merge_request_iid" := VNum 4 ]}) (start tt))
  = textResponse (Some "No diff data available for this merge request.")
  /\ fst (JS.callTool (constApi (VObj [("message", VStr "401 Unauthorized")])) noEnv
            "get_projects" (Some {[ "verbose" := VBool true ]}) (start tt))
     = textResponse (Some "No projects found.")
  /\ isError (fst (JS.callTool (constApi (VObj [("message", VStr "401 Unauthorized")]))
                     noEnv "get_projects" (Some ∅) (start tt)))
     = Some true.
Proof.
  assert (Hlist : forall items,
             VObj [("message", VStr "401 Unauthorized")] <> VArr items)
    by (intros items; discriminate).
  split; [|split].
  - exact (proj1 (answers_that_are_not_lists
                    (constApi (VObj [("message", VStr "401 Unauthorized")])) noEnv
                    {[ "project_id" := VNum 1; "merge_request_iid" := VNum 4 ]} (start tt)
                    (VObj [("message", VStr "401 Unauthorized")]) tt eq_refl Hlist)
             eq_refl).
  - exact (proj1 (proj2 (answers_that_are_not_lists
                    (constApi (VObj [("message", VStr "401 Unauthorized")])) noEnv
                    {[ "verbose" := VBool true ]} (start tt)
                    (VObj [("message", VStr "401 Unauthorized")]) tt eq_refl Hlist))
             eq_refl).
  - exact (proj1 (proj2 (answers_that_are_not_lists
                    (constApi (VObj [("message", VStr "401 Unauthorized")])) noEnv
                    ∅ (start tt)
                    (VObj [("message", VStr "401 Unauthorized")]) tt eq_refl Hlist))
             eq_refl).
Defined.

Lemma absent_fields_are_left_out_witness :
  fst (JS.callTool (constApi (VObj [("title", VStr "Crash"); ("labels", VArr [])])) noEnv
         "get_issue_details"
         (Some {[ "project_id" := VNum 1; "issue_iid" := VNum 2 ]}) (start tt))
  = textResponse (stringify (VObj [("title", VStr "Crash")])).
Proof.
  exact (proj2 (absent_fields_are_left_out
                  (constApi (VObj [("title", VStr "Crash"); ("labels", VArr [])])) noEnv
                  {[ "project_id" := VNum 1; "issue_iid" := VNum 2 ]} (start tt)
                  (VObj [("title", VStr "Crash"); ("labels", VArr [])]) tt
                  eq_refl eq_refl) eq_refl).
Defined.

Lemma unfiltered_operations_ignore_verbose_witness :
  JS.callTool sampleApi noEnv "set_merge_request_title"
    (Some (<["verbose" := VBool true]>
             ({[ "project_id" := VNum 1; "merge_request_iid" := VNum 4;
                 "title" := VStr "Add parser" ]} : Args))) (start 0)
  = JS.callTool sampleApi noEnv "set_merge_request_title"
      (Some {[ "project_id" := VNum 1; "merge_request_iid" := VNum 4;
               "title" := VStr "Add parser" ]}) (start 0)
  /\ fst (JS.callTool sampleApi noEnv "get_merge_request_diff"
            (Some {[ "project_id" := VNum 1; "merge_request_iid" := VNum 4 ]}) (start 0))
     = textResponse
         (stringify (VArr [VObj [("new_path", VStr "src/main.ts");
                                 ("diff", VStr "@@ -1 +1 @@")]])).
Proof.
  destruct (unfiltered_operations_ignore_verbose sampleApi noEnv) as [Hverbose Hdiff].
  split.
  - apply Hverbose. simpl. tauto.
  - exact (Hdiff {[ "project_id" := VNum 1; "merge_request_iid" := VNum 4 ]} (start 0)
             (VObj [("new_path", VStr "src/main.ts"); ("diff", VStr "@@ -1 +1 @@")])
             [] 1 eq_refl).
Defined.
